(* Shallow embedding of the screen-capture core of ammon-c/screencap:
   ScreenCaptureGDI (ScreenCapGDI.h/.cpp), ScreenCaptureDX11
   (ScreenCapDX11.h/.cpp) and the ScreenCapture facade (ScreenCap.h).

   Native calls (GetSystemMetrics, CreateCompatibleDC, CreateDIBSection,
   BitBlt, AcquireNextFrame, CreateTexture2D, Map, ...) are not modelled:
   their outcomes are inputs of the embedded functions (an "environment"
   record per call), so every theorem quantifies over whatever the OS and
   the driver return.  Handles and pointers are [option nat] (None is
   nullptr) or, for CComPtr members, a bool "non-null". *)

From Stdlib Require Import Arith Lia Bool List ZArith NArith.
From Stdlib Require Strings.Byte Strings.String.
Import ListNotations.

Definition byte := Byte.byte.

(* ------------------------------------------------------------------ *)
(** * Raw memory *)

(** A block of memory indexed by byte offset. *)
Definition memory := nat -> byte.

(** [memcpy(dst, src, n)] from memory [smem] into memory [dmem]
    (offsets relative to each block). *)
Definition memcpy (dst src n : nat) (dmem smem : memory) : memory :=
  fun a => if (dst <=? a) && (a <? dst + n) then smem (src + (a - dst)) else dmem a.

(* ------------------------------------------------------------------ *)
(** * ScreenCaptureGDI *)

Module GDI.

Record ScreenCaptureGDI := mk {
  m_width : nat;
  m_height : nat;
  m_depth : nat;
  m_stride : nat;
  m_hdcMem : option nat;
  m_dibSection : option nat;
  m_dibOld : option nat;
  m_dibBits : option nat;
  (** contents of the DIB section's pixel array (at [m_dibBits]) *)
  pixels : memory
}.

(** Freshly constructed object: all members at their initialisers. *)
Definition init : ScreenCaptureGDI :=
  mk 0 0 0 0 None None None None (fun _ => Byte.x00).

(** What the OS answers to the calls made by [Startup]. *)
Record startup_env := {
  cx_screen : nat; cy_screen : nat;          (* SM_CXSCREEN, SM_CYSCREEN *)
  cmonitors : nat;                           (* SM_CMONITORS *)
  cx_virtual : nat; cy_virtual : nat;        (* SM_CXVIRTUALSCREEN, SM_CYVIRTUALSCREEN *)
  create_dc : option nat;                    (* CreateCompatibleDC *)
  dib_section : option nat;                  (* CreateDIBSection return value *)
  dib_bits : option nat;                     (* its ppvBits out-parameter *)
  dib_contents : memory;                     (* initial pixel array *)
  select_old : option nat                    (* SelectObject return value *)
}.

(** [m_stride = m_width * 32 / 8; while (m_stride % 4) ++m_stride;]
    (at most three increments, so four rounds of fuel suffice). *)
Fixpoint pad_stride (fuel s : nat) : nat :=
  match fuel with
  | O => s
  | S f => if s mod 4 =? 0 then s else pad_stride f (S s)
  end.

Definition Startup (s : ScreenCaptureGDI) (e : startup_env)
  : ScreenCaptureGDI * bool :=
  let w0 := cx_screen e in
  let h0 := cy_screen e in
  let w := if 1 <? cmonitors e then cx_virtual e else w0 in
  let h := if 1 <? cmonitors e then cy_virtual e else h0 in
  let s1 := {| m_width := w; m_height := h; m_depth := m_depth s;
               m_stride := m_stride s; m_hdcMem := create_dc e;
               m_dibSection := m_dibSection s; m_dibOld := m_dibOld s;
               m_dibBits := m_dibBits s; pixels := pixels s |} in
  match create_dc e with
  | None => (s1, false)
  | Some dc =>
      let s2 := {| m_width := w; m_height := h; m_depth := m_depth s;
                   m_stride := m_stride s; m_hdcMem := Some dc;
                   m_dibSection := dib_section e; m_dibOld := m_dibOld s;
                   m_dibBits := dib_bits e; pixels := dib_contents e |} in
      match dib_section e, dib_bits e with
      | Some _, Some _ =>
          ({| m_width := w; m_height := h; m_depth := 32;
              m_stride := pad_stride 4 (w * 32 / 8); m_hdcMem := Some dc;
              m_dibSection := dib_section e; m_dibOld := select_old e;
              m_dibBits := dib_bits e; pixels := dib_contents e |}, true)
      | _, _ =>
          (* DeleteDC(m_hdcMem); m_hdcMem = nullptr; return false; *)
          ({| m_width := w; m_height := h; m_depth := m_depth s;
              m_stride := m_stride s; m_hdcMem := None;
              m_dibSection := m_dibSection s2; m_dibOld := m_dibOld s2;
              m_dibBits := m_dibBits s2; pixels := pixels s2 |}, false)
      end
  end.

(** [Shutdown]: the handles are released and nulled and the metadata
    reset; [m_dibBits] is left as it was. *)
Definition Shutdown (s : ScreenCaptureGDI) : ScreenCaptureGDI :=
  {| m_width := 0; m_height := 0; m_depth := 0; m_stride := 0;
     m_hdcMem := None; m_dibSection := None; m_dibOld := None;
     m_dibBits := m_dibBits s; pixels := pixels s |}.

(** One round of the scanline-swap loop body:
    [memcpy(scanline.data(), scanline1, m_stride);
     memcpy(scanline1, scanline2, m_stride);
     memcpy(scanline2, scanline.data(), m_stride);] *)
Definition swap_body (stride s1 s2 : nat) (mem tmp : memory) : memory * memory :=
  let tmp' := memcpy 0 s1 stride tmp mem in
  let mem' := memcpy s1 s2 stride mem mem in
  let mem'' := memcpy s2 0 stride mem' tmp' in
  (mem'', tmp').

(** [for (unsigned y = 0; y < m_height / 2; y++) { body; scanline1 += m_stride;
    scanline2 -= m_stride; }], run with [fuel] rounds at most. *)
Fixpoint flip_loop (fuel y h stride s1 s2 : nat) (mem tmp : memory) : memory :=
  match fuel with
  | O => mem
  | S f =>
      if y <? h / 2 then
        let '(mem', tmp') := swap_body stride s1 s2 mem tmp in
        flip_loop f (S y) h stride (s1 + stride) (s2 - stride) mem' tmp'
      else mem
  end.

(** The scanline reordering of [CaptureFrame] applied to the DIB contents
    [mem]: [scanline1 = m_dibBits], [scanline2 = m_dibBits + (m_height-1)*m_stride],
    [std::vector<uint8_t> scanline(m_stride)] zero-filled. *)
Definition flip_scanlines (h stride : nat) (mem : memory) : memory :=
  flip_loop h 0 h stride 0 ((h - 1) * stride) mem (fun _ => Byte.x00).

(** [CaptureFrame]: the BitBlt result [blit_ok] is dropped by the source;
    when it succeeds the DIB holds [blitted] (bottom-up), otherwise it is
    left as it was. *)
Definition CaptureFrame (s : ScreenCaptureGDI) (blit_ok : bool) (blitted : memory)
  : ScreenCaptureGDI * bool :=
  if match m_hdcMem s with None => true | Some _ => false end || (m_width s =? 0)
  then (s, false)
  else
    let mem := if blit_ok then blitted else pixels s in
    ({| m_width := m_width s; m_height := m_height s; m_depth := m_depth s;
        m_stride := m_stride s; m_hdcMem := m_hdcMem s;
        m_dibSection := m_dibSection s; m_dibOld := m_dibOld s;
        m_dibBits := m_dibBits s;
        pixels := flip_scanlines (m_height s) (m_stride s) mem |}, true).

(** Accessors. *)
Definition GetFrameWidth (s : ScreenCaptureGDI) : nat := m_width s.
Definition GetFrameHeight (s : ScreenCaptureGDI) : nat := m_height s.
Definition GetFrameDepth (s : ScreenCaptureGDI) : nat := m_depth s.
Definition GetFrameStride (s : ScreenCaptureGDI) : nat := m_stride s.
Definition GetFrameBuffer (s : ScreenCaptureGDI) : option nat := m_dibBits s.

(** Operations a caller can issue on the backend. *)
Inductive op :=
| OpStartup (e : startup_env)
| OpCaptureFrame (blit_ok : bool) (blitted : memory)
| OpShutdown.

Definition step (s : ScreenCaptureGDI) (o : op) : ScreenCaptureGDI :=
  match o with
  | OpStartup e => fst (Startup s e)
  | OpCaptureFrame b m => fst (CaptureFrame s b m)
  | OpShutdown => Shutdown s
  end.

Definition run (s : ScreenCaptureGDI) (ops : list op) : ScreenCaptureGDI :=
  fold_left step ops s.

End GDI.

(* ------------------------------------------------------------------ *)
(** * ScreenCaptureDX11 *)

Module DX11.

(** DXGI_FORMAT values used by [IsFormat32bit]. *)
Definition DXGI_FORMAT_B8G8R8A8_UNORM : nat := 87.
Definition DXGI_FORMAT_B8G8R8X8_UNORM : nat := 88.
Definition DXGI_FORMAT_B8G8R8A8_TYPELESS : nat := 90.
Definition DXGI_FORMAT_B8G8R8A8_UNORM_SRGB : nat := 91.
Definition DXGI_FORMAT_B8G8R8X8_TYPELESS : nat := 92.
Definition DXGI_FORMAT_B8G8R8X8_UNORM_SRGB : nat := 93.
Definition DXGI_FORMAT_R16G16B16A16_FLOAT : nat := 10.

Definition IsFormat32bit (fmt : nat) : bool :=
  if negb (fmt =? DXGI_FORMAT_B8G8R8A8_UNORM) &&
     negb (fmt =? DXGI_FORMAT_B8G8R8X8_UNORM) &&
     negb (fmt =? DXGI_FORMAT_B8G8R8A8_TYPELESS) &&
     negb (fmt =? DXGI_FORMAT_B8G8R8A8_UNORM_SRGB) &&
     negb (fmt =? DXGI_FORMAT_B8G8R8X8_TYPELESS) &&
     negb (fmt =? DXGI_FORMAT_B8G8R8X8_UNORM_SRGB)
  then false
  else true.

(** Member variables; a CComPtr member is a bool meaning "non-null". *)
Record ScreenCaptureDX11 := mk {
  m_device : bool;
  m_deviceContext : bool;
  m_stagingTexture : bool;
  m_outputDuplication : bool;
  m_frameBuffer : list byte;
  m_frameWidth : nat;
  m_frameHeight : nat;
  m_frameDepth : nat;
  m_frameStride : nat
}.

Definition init : ScreenCaptureDX11 := mk false false false false [] 0 0 0 0.

(** Calls on external interfaces, in the order the code issues them. *)
Inductive event :=
| EvAcquireNextFrame          (* IDXGIOutputDuplication::AcquireNextFrame *)
| EvReleaseFrame              (* IDXGIOutputDuplication::ReleaseFrame *)
| EvSleep                     (* Sleep(1) *)
| EvQueryTexture              (* IDXGIResource::QueryInterface(ID3D11Texture2D) *)
| EvGetDesc                   (* IDXGIOutputDuplication::GetDesc *)
| EvCreateStaging             (* ID3D11Device::CreateTexture2D *)
| EvCopyResource              (* ID3D11DeviceContext::CopyResource *)
| EvMap                       (* ID3D11DeviceContext::Map *)
| EvUnmap                     (* ID3D11DeviceContext::Unmap *)
| EvReleaseStaging
| EvReleaseDuplication
| EvReleaseDevice
| EvReleaseDeviceContext.

(** Outcome of one call to the duplication session's AcquireNextFrame:
    [SUCCEEDED(hr)], [finfo.LastPresentTime.QuadPart], and whether
    [desktopResource] came back non-null. *)
Record acquire_result := {
  hr_ok : bool;
  last_present_time : Z;
  resource : bool
}.

(** What the driver answers during one [CaptureFrame] call. *)
Record capture_env := {
  acquire : nat -> acquire_result;     (* per attempt number *)
  query_texture_ok : bool;             (* QueryInterface(ID3D11Texture2D) *)
  desc_format : nat;                   (* desc.ModeDesc.Format *)
  desc_width : nat;                    (* desc.ModeDesc.Width *)
  desc_height : nat;                   (* desc.ModeDesc.Height *)
  create_staging_ok : bool;            (* CreateTexture2D and non-null result *)
  map_ok : bool;                       (* SUCCEEDED(Map(...)) *)
  row_pitch : nat;                     (* res.RowPitch *)
  mapped_data : nat -> byte            (* res.pData *)
}.

(** The retry loop [for (attempt = 0; attempt < 4; attempt++)] of
    [AcquireNextFrame]; [n] rounds are left, [hr] and [res] are the current
    [hr] and [desktopResource != nullptr].  Returns the final [hr], the
    final [desktopResource] and the calls issued. *)
Fixpoint acquire_loop (n attempt : nat) (env : capture_env) (hr res : bool)
  : bool * bool * list event :=
  match n with
  | O => (hr, res, [])
  | S n' =>
      let r := acquire env attempt in
      let hr := hr_ok r in
      let res := resource r in
      if hr && (last_present_time r =? 0)%Z then
        (* desktopResource.Release(); ReleaseFrame(); Sleep(1); *)
        let '(hr', res', evs) := acquire_loop n' (S attempt) env hr false in
        (hr', res', EvAcquireNextFrame :: EvReleaseFrame :: EvSleep :: evs)
      else if hr && negb res then
        let '(hr', res', evs) := acquire_loop n' (S attempt) env hr res in
        (hr', res', EvAcquireNextFrame :: EvReleaseFrame :: EvSleep :: evs)
      else (hr, res, [EvAcquireNextFrame])
  end.

(** [AcquireNextFrame]: returns success and whether [acquiredDesktopImage]
    is non-null. *)
Definition AcquireNextFrame (env : capture_env) : bool * bool * list event :=
  let '(hr, res, evs) := acquire_loop 4 0 env false false in
  if negb hr || negb res then (false, false, evs)
  else if query_texture_ok env then (true, true, evs ++ [EvQueryTexture])
  else (false, false, evs ++ [EvQueryTexture]).

Definition clear_metadata (s : ScreenCaptureDX11) : ScreenCaptureDX11 :=
  {| m_device := m_device s; m_deviceContext := m_deviceContext s;
     m_stagingTexture := m_stagingTexture s;
     m_outputDuplication := m_outputDuplication s;
     m_frameBuffer := m_frameBuffer s;
     m_frameWidth := 0; m_frameHeight := 0; m_frameDepth := 0; m_frameStride := 0 |}.

(** [CopyStagingTextureToMemory(m_deviceContext, m_stagingTexture)]: the
    staging texture was created from [desc], so its width and height are
    [desc_width] and [desc_height]. *)
Definition CopyStagingTextureToMemory (s : ScreenCaptureDX11) (env : capture_env)
  : ScreenCaptureDX11 * bool * list event :=
  if negb (m_deviceContext s) then (s, false, [])
  else if negb (map_ok env) then (s, false, [EvMap])
  else
    let w := desc_width env in
    let h := desc_height env in
    let stride := row_pitch env in
    ({| m_device := m_device s; m_deviceContext := m_deviceContext s;
        m_stagingTexture := m_stagingTexture s;
        m_outputDuplication := m_outputDuplication s;
        m_frameBuffer := map (mapped_data env) (seq 0 (stride * h));
        m_frameWidth := w; m_frameHeight := h; m_frameDepth := 32;
        m_frameStride := stride |}, true, [EvMap; EvUnmap]).

Definition set_staging (b : bool) (s : ScreenCaptureDX11) : ScreenCaptureDX11 :=
  {| m_device := m_device s; m_deviceContext := m_deviceContext s;
     m_stagingTexture := b; m_outputDuplication := m_outputDuplication s;
     m_frameBuffer := m_frameBuffer s;
     m_frameWidth := m_frameWidth s; m_frameHeight := m_frameHeight s;
     m_frameDepth := m_frameDepth s; m_frameStride := m_frameStride s |}.

(** [CaptureFrame]: new state, return value, calls issued. *)
Definition CaptureFrame (s : ScreenCaptureDX11) (env : capture_env)
  : ScreenCaptureDX11 * bool * list event :=
  let s0 := clear_metadata s in
  if negb (m_device s0) || negb (m_deviceContext s0) || negb (m_outputDuplication s0)
  then (s0, false, [])
  else
    let '(ok, img, evs1) := AcquireNextFrame env in
    if negb ok || negb img then (s0, false, evs1)
    else
      let evs1 := evs1 ++ [EvGetDesc] in
      if negb (IsFormat32bit (desc_format env)) then
        (* Incompatible image format! *)
        (s0, false, evs1)
      else if negb (create_staging_ok env) then
        (s0, false, evs1 ++ [EvCreateStaging; EvReleaseFrame])
      else
        let s1 := set_staging true s0 in
        let '(s2, ok, evs2) := CopyStagingTextureToMemory s1 env in
        (set_staging false s2, ok,
         evs1 ++ [EvCreateStaging; EvCopyResource] ++ evs2
              ++ [EvReleaseStaging; EvReleaseFrame]).

(** Driver types tried by [InitializeDevice], in order. *)
Inductive driver_type := HARDWARE | WARP | REFERENCE.
Definition drivers : list driver_type := [HARDWARE; WARP; REFERENCE].

(** What the system answers during [Startup]. *)
Record startup_env := {
  (** [SUCCEEDED(hr) && m_device && m_deviceContext] for D3D11CreateDevice *)
  create_device_ok : driver_type -> bool;
  (** every step of [StartOutputDuplication] succeeded and the
      duplication interface came back non-null *)
  duplicate_output_ok : bool
}.

(** The driver-type loop of [InitializeDevice]: true at the first driver
    type whose device creation succeeds. *)
Fixpoint try_drivers (e : startup_env) (ds : list driver_type) : bool :=
  match ds with
  | [] => false
  | d :: ds' => if create_device_ok e d then true else try_drivers e ds'
  end.

Definition Startup (s : ScreenCaptureDX11) (e : startup_env)
  : ScreenCaptureDX11 * bool :=
  let s0 := {| m_device := m_device s; m_deviceContext := m_deviceContext s;
               m_stagingTexture := m_stagingTexture s;
               m_outputDuplication := m_outputDuplication s;
               m_frameBuffer := [];
               m_frameWidth := 0; m_frameHeight := 0; m_frameDepth := 0;
               m_frameStride := 0 |} in
  if negb (try_drivers e drivers) then
    (* every failed attempt released what it had created *)
    ({| m_device := false; m_deviceContext := false;
        m_stagingTexture := m_stagingTexture s0;
        m_outputDuplication := m_outputDuplication s0;
        m_frameBuffer := []; m_frameWidth := 0; m_frameHeight := 0;
        m_frameDepth := 0; m_frameStride := 0 |}, false)
  else
    let ok := duplicate_output_ok e in
    ({| m_device := true; m_deviceContext := true;
        m_stagingTexture := m_stagingTexture s0;
        m_outputDuplication := ok || m_outputDuplication s0;
        m_frameBuffer := []; m_frameWidth := 0; m_frameHeight := 0;
        m_frameDepth := 0; m_frameStride := 0 |}, ok).

(** [Shutdown]: each held CComPtr is released, in source order, and the
    frame buffer is cleared. *)
Definition Shutdown (s : ScreenCaptureDX11) : ScreenCaptureDX11 * list event :=
  let evs :=
    (if m_stagingTexture s then [EvReleaseStaging] else []) ++
    (if m_outputDuplication s then [EvReleaseDuplication] else []) ++
    (if m_device s then [EvReleaseDevice] else []) ++
    (if m_deviceContext s then [EvReleaseDeviceContext] else []) in
  ({| m_device := false; m_deviceContext := false; m_stagingTexture := false;
      m_outputDuplication := false; m_frameBuffer := [];
      m_frameWidth := m_frameWidth s; m_frameHeight := m_frameHeight s;
      m_frameDepth := m_frameDepth s; m_frameStride := m_frameStride s |}, evs).

Definition GetFrameWidth (s : ScreenCaptureDX11) : nat := m_frameWidth s.
Definition GetFrameHeight (s : ScreenCaptureDX11) : nat := m_frameHeight s.
Definition GetFrameDepth (s : ScreenCaptureDX11) : nat := m_frameDepth s.
Definition GetFrameStride (s : ScreenCaptureDX11) : nat := m_frameStride s.

Inductive op :=
| OpStartup (e : startup_env)
| OpCaptureFrame (e : capture_env)
| OpShutdown.

(** Runs a sequence of operations; the flag records whether some
    [CaptureFrame] returned true. *)
Fixpoint run (s : ScreenCaptureDX11) (ops : list op) : ScreenCaptureDX11 * bool :=
  match ops with
  | [] => (s, false)
  | OpStartup e :: ops' => run (fst (Startup s e)) ops'
  | OpCaptureFrame e :: ops' =>
      let '(s', ok, _) := CaptureFrame s e in
      let '(s'', any) := run s' ops' in (s'', ok || any)
  | OpShutdown :: ops' => run (fst (Shutdown s)) ops'
  end.

End DX11.

(* ------------------------------------------------------------------ *)
(** * ScreenCapture (facade) *)

Module Facade.

Inductive ScreenCaptureMode :=
| ScreenCaptureMode_Invalid
| ScreenCaptureMode_GDI
| ScreenCaptureMode_DX11.

Definition is_invalid (m : ScreenCaptureMode) : bool :=
  match m with ScreenCaptureMode_Invalid => true | _ => false end.

(** [m_capgdi] and [m_capdx11] are owning pointers: [None] is nullptr. *)
Record ScreenCapture := mk {
  m_mode : ScreenCaptureMode;
  m_capgdi : option GDI.ScreenCaptureGDI;
  m_capdx11 : option DX11.ScreenCaptureDX11
}.

Definition init : ScreenCapture := mk ScreenCaptureMode_Invalid None None.

(** [Shutdown]: deletes whichever backend exists (its destructor runs its
    own Shutdown on an object that is then gone) and resets the mode. *)
Definition Shutdown (_ : ScreenCapture) : ScreenCapture :=
  mk ScreenCaptureMode_Invalid None None.

Definition Startup (s : ScreenCapture) (mode : ScreenCaptureMode)
  (ge : GDI.startup_env) (de : DX11.startup_env) : ScreenCapture * bool :=
  let s := if negb (is_invalid (m_mode s)) then Shutdown s else s in
  match mode with
  | ScreenCaptureMode_GDI =>
      (* m_capgdi = new ScreenCaptureGDI; return m_capgdi->Startup(); *)
      let '(g, ok) := GDI.Startup GDI.init ge in
      (mk mode (Some g) (m_capdx11 s), ok)
  | ScreenCaptureMode_DX11 =>
      let '(d, ok) := DX11.Startup DX11.init de in
      (mk mode (m_capgdi s) (Some d), ok)
  | ScreenCaptureMode_Invalid => (mk mode (m_capgdi s) (m_capdx11 s), false)
  end.

(** What the OS answers to one facade-level [CaptureFrame]. *)
Record capture_env := {
  blit_ok : bool;
  blitted : memory;
  dx_env : DX11.capture_env
}.

Definition CaptureFrame (s : ScreenCapture) (e : capture_env) : ScreenCapture * bool :=
  match m_capgdi s with
  | Some g =>
      let '(g', ok) := GDI.CaptureFrame g (blit_ok e) (blitted e) in
      (mk (m_mode s) (Some g') (m_capdx11 s), ok)
  | None =>
      match m_capdx11 s with
      | Some d =>
          let '(d', ok, _) := DX11.CaptureFrame d (dx_env e) in
          (mk (m_mode s) None (Some d'), ok)
      | None => (s, false)
      end
  end.


Definition dispatch (fg : GDI.ScreenCaptureGDI -> nat)
  (fd : DX11.ScreenCaptureDX11 -> nat) (s : ScreenCapture) : nat :=
  match m_capgdi s with
  | Some g => fg g
  | None => match m_capdx11 s with Some d => fd d | None => 0 end
  end.

Definition GetFrameWidth := dispatch GDI.GetFrameWidth DX11.GetFrameWidth.
Definition GetFrameHeight := dispatch GDI.GetFrameHeight DX11.GetFrameHeight.
Definition GetFrameDepth := dispatch GDI.GetFrameDepth DX11.GetFrameDepth.
Definition GetFrameStride := dispatch GDI.GetFrameStride DX11.GetFrameStride.

(** The "no backend selected" state. *)
Definition no_backend (s : ScreenCapture) : Prop :=
  m_mode s = ScreenCaptureMode_Invalid /\ m_capgdi s = None /\ m_capdx11 s = None.

End Facade.

(* ------------------------------------------------------------------ *)
(** * Unsigned 32-bit arithmetic *)

Module U32.

Definition modulus : N := (2 ^ 32)%N.

(** The value of an [unsigned] / [uint32_t] / [DWORD] expression. *)
Definition wrap (x : N) : N := (x mod modulus)%N.

End U32.

(* ------------------------------------------------------------------ *)
(** * Pointer accessors of the backends *)

Module GDIBuffer.
Import GDI.

(** [if (!m_dibBits) return nullptr; return m_dibBits + (m_stride * y);]
    with the product computed in [unsigned] arithmetic. *)
Definition GetFrameBufferScanlinePtr (s : ScreenCaptureGDI) (y : nat) : option nat :=
  match m_dibBits s with
  | None => None
  | Some b => Some (b + N.to_nat (U32.wrap (N.of_nat (m_stride s) * N.of_nat y)))
  end.

(** [... return m_dibBits + (m_stride * y) + (x * m_depth / 8);] *)
Definition GetFrameBufferPixelPtr (s : ScreenCaptureGDI) (y x : nat) : option nat :=
  match m_dibBits s with
  | None => None
  | Some b =>
      Some (b + N.to_nat (U32.wrap (N.of_nat (m_stride s) * N.of_nat y))
              + N.to_nat (U32.wrap (N.of_nat x * N.of_nat (m_depth s)) / 8))
  end.

End GDIBuffer.

Module DX11Buffer.
Import DX11.

(** Offsets from [m_frameBuffer.data()]:
    [m_frameBuffer.data() + (m_frameStride * y)]. *)
Definition GetFrameBufferScanlinePtr (s : ScreenCaptureDX11) (y : nat) : nat :=
  N.to_nat (U32.wrap (N.of_nat (m_frameStride s) * N.of_nat y)).

(** [m_frameBuffer.data() + (m_frameStride * y) + (x * m_frameDepth / 8)] *)
Definition GetFrameBufferPixelPtr (s : ScreenCaptureDX11) (y x : nat) : nat :=
  GetFrameBufferScanlinePtr s y
  + N.to_nat (U32.wrap (N.of_nat x * N.of_nat (m_frameDepth s)) / 8).

End DX11Buffer.

(* ------------------------------------------------------------------ *)
(** * Sequences of facade calls *)

Module FacadeRun.
Import Facade.

Inductive op :=
| OpStartup (mode : ScreenCaptureMode) (ge : GDI.startup_env) (de : DX11.startup_env)
| OpCaptureFrame (e : capture_env)
| OpShutdown.

Definition step (s : ScreenCapture) (o : op) : ScreenCapture :=
  match o with
  | OpStartup mode ge de => fst (Startup s mode ge de)
  | OpCaptureFrame e => fst (CaptureFrame s e)
  | OpShutdown => Shutdown s
  end.

Definition run (s : ScreenCapture) (ops : list op) : ScreenCapture :=
  fold_left step ops s.

End FacadeRun.

(* ------------------------------------------------------------------ *)
(** * VideoFileEncoder (VideoFileEncoder.h/.cpp) *)

Module Encoder.

(** GUIDs are opaque identifiers; only their identity matters. *)
Definition GUID := N.
Definition MFVideoFormat_H264 : GUID := 1%N.
Definition MFVideoFormat_WMV3 : GUID := 2%N.
Definition MFVideoFormat_RGB32 : GUID := 3%N.

(** Member variables; [m_pixels] is a [std::vector<uint8_t>] given by its
    size and contents, [m_pSinkWriter] a raw pointer ([None] is nullptr). *)
Record VideoFileEncoder := mk {
  m_width : N;
  m_height : N;
  m_fps : N;
  m_frameDuration : N;
  m_bitRate : N;
  m_encodingFormat : GUID;
  m_inputFormat : GUID;
  m_pixels_size : nat;
  m_pixels : memory;
  m_pSinkWriter : option nat;
  m_stream : N;
  m_doMFStartup : bool;
  m_doCoInitialize : bool
}.

(** COM / Media Foundation calls made by the constructor, [Stop] and the
    destructor. *)
Inductive com_call :=
| CallCoInitializeEx | CallMFStartup | CallFinalize
| CallMFShutdown | CallCoUninitialize.

(** [VideoFileEncoder(doMFStartup, doCoInitialize)]: both flags are stored;
    CoInitializeEx and MFStartup are called unconditionally. *)
Definition construct (doMFStartup doCoInitialize : bool) : VideoFileEncoder * list com_call :=
  ({| m_width := 0; m_height := 0; m_fps := 0; m_frameDuration := 0; m_bitRate := 0;
      m_encodingFormat := MFVideoFormat_H264; m_inputFormat := MFVideoFormat_RGB32;
      m_pixels_size := 0; m_pixels := fun _ => Byte.x00;
      m_pSinkWriter := None; m_stream := 0;
      m_doMFStartup := doMFStartup; m_doCoInitialize := doCoInitialize |},
   [CallCoInitializeEx; CallMFStartup]).

Definition set_writer (w : option nat) (st : N) (s : VideoFileEncoder) : VideoFileEncoder :=
  {| m_width := m_width s; m_height := m_height s; m_fps := m_fps s;
     m_frameDuration := m_frameDuration s; m_bitRate := m_bitRate s;
     m_encodingFormat := m_encodingFormat s; m_inputFormat := m_inputFormat s;
     m_pixels_size := m_pixels_size s; m_pixels := m_pixels s;
     m_pSinkWriter := w; m_stream := st;
     m_doMFStartup := m_doMFStartup s; m_doCoInitialize := m_doCoInitialize s |}.

Definition set_pixels (mem : memory) (s : VideoFileEncoder) : VideoFileEncoder :=
  {| m_width := m_width s; m_height := m_height s; m_fps := m_fps s;
     m_frameDuration := m_frameDuration s; m_bitRate := m_bitRate s;
     m_encodingFormat := m_encodingFormat s; m_inputFormat := m_inputFormat s;
     m_pixels_size := m_pixels_size s; m_pixels := mem;
     m_pSinkWriter := m_pSinkWriter s; m_stream := m_stream s;
     m_doMFStartup := m_doMFStartup s; m_doCoInitialize := m_doCoInitialize s |}.

(** [Stop]: [finalize_ok] is [SUCCEEDED(m_pSinkWriter->Finalize())]. *)
Definition Stop (s : VideoFileEncoder) (finalize_ok : bool) : VideoFileEncoder * bool :=
  match m_pSinkWriter s with
  | None => (s, false)
  | Some _ => (set_writer None (m_stream s) s, finalize_ok)
  end.

(** [~VideoFileEncoder]: [Stop()], then MFShutdown and CoUninitialize as
    the flags say. *)
Definition destroy (s : VideoFileEncoder) : list com_call :=
  (match m_pSinkWriter s with Some _ => [CallFinalize] | None => [] end) ++
  (if m_doMFStartup s then [CallMFShutdown] else []) ++
  (if m_doCoInitialize s then [CallCoUninitialize] else []).

Definition SetEncodingFormat (s : VideoFileEncoder) (fmt : GUID) : VideoFileEncoder * bool :=
  ({| m_width := m_width s; m_height := m_height s; m_fps := m_fps s;
      m_frameDuration := m_frameDuration s; m_bitRate := m_bitRate s;
      m_encodingFormat := fmt; m_inputFormat := m_inputFormat s;
      m_pixels_size := m_pixels_size s; m_pixels := m_pixels s;
      m_pSinkWriter := m_pSinkWriter s; m_stream := m_stream s;
      m_doMFStartup := m_doMFStartup s; m_doCoInitialize := m_doCoInitialize s |}, true).

(** [std::vector::resize(n)] from [size] elements: the first ones are kept
    and the new ones value-initialized. *)
Definition resize (size n : nat) (mem : memory) : memory :=
  fun a => if (a <? size) && (a <? n) then mem a else Byte.x00.

(** [static_cast<uint32_t>(width * height * 2.5)]: the product is a
    [uint32_t], exactly scaled by 2.5 in double and truncated (the
    conversion is undefined when the result does not fit 32 bits). *)
Definition bit_rate (width height : N) : N := (U32.wrap (width * height) * 5 / 2)%N.

(** Size in bytes of the pixel buffer:
    [width * height * sizeof(uint32_t)], a [uint32_t] product widened to
    [size_t]. *)
Definition frame_bytes (width height : N) : nat := N.to_nat (U32.wrap (width * height) * 4).

Definition SetFrameFormat (s : VideoFileEncoder) (width height fps : N)
  : VideoFileEncoder * bool :=
  if (width <? 1)%N || (height <? 1)%N || (fps <? 1)%N then (s, false)
  else
    let n := frame_bytes width height in
    ({| m_width := width; m_height := height; m_fps := fps;
        m_frameDuration := (10 * 1000 * 1000 / fps)%N;
        m_bitRate := bit_rate width height;
        m_encodingFormat := m_encodingFormat s; m_inputFormat := m_inputFormat s;
        m_pixels_size := n; m_pixels := resize (m_pixels_size s) n (m_pixels s);
        m_pSinkWriter := m_pSinkWriter s; m_stream := m_stream s;
        m_doMFStartup := m_doMFStartup s; m_doCoInitialize := m_doCoInitialize s |},
     true).

(** What Media Foundation answers to [InitializeSinkWriter]. *)
Record sink_env := {
  (** every call from MFCreateSinkWriterFromURL to BeginWriting succeeded *)
  sink_hr_ok : bool;
  sink_writer : nat;          (* the sink writer created *)
  sink_stream : N             (* the stream index AddStream returned *)
}.

(** [InitializeSinkWriter]: [*ppWriter] and [*pStreamIndex] start as
    nullptr and 0 and are set only when the whole chain succeeded. *)
Definition InitializeSinkWriter (se : sink_env) : option nat * N * bool :=
  if sink_hr_ok se then (Some (sink_writer se), sink_stream se, true)
  else (None, 0%N, false).

(** [Start]; [finalize_ok] is for the [Stop()] of an open writer. *)
Definition Start (s : VideoFileEncoder) (finalize_ok : bool) (se : sink_env)
  (width height fps : N) : VideoFileEncoder * bool :=
  let s1 := match m_pSinkWriter s with Some _ => fst (Stop s finalize_ok) | None => s end in
  let '(s2, ok) := SetFrameFormat s1 width height fps in
  if negb ok then (s2, false)
  else
    let s3 := set_writer None 0 s2 in
    let '(w, st, hr) := InitializeSinkWriter se in
    (set_writer w st s3, hr).

(** Calls made by [WriteFrame]. *)
Inductive mf_call :=
| CallMFCreateMemoryBuffer | CallLock | CallMFCopyImage | CallUnlock
| CallSetCurrentLength | CallMFCreateSample | CallAddBuffer
| CallSetSampleTime (t : N) | CallSetSampleDuration (d : N)
| CallWriteSample (writer : option nat)
| CallReleaseSample | CallReleaseBuffer.

(** Outcome of each Media Foundation call of [WriteFrame]. *)
Record frame_env := {
  create_buffer_ok : bool;   (* MFCreateMemoryBuffer *)
  lock_ok : bool;
  copy_ok : bool;            (* MFCopyImage *)
  set_length_ok : bool;
  create_sample_ok : bool;   (* MFCreateSample *)
  add_buffer_ok : bool;
  set_time_ok : bool;
  set_duration_ok : bool;
  write_ok : bool            (* pWriter->WriteSample *)
}.

(** [WriteFrame(pWriter, streamIndex, timestamp)]: the HRESULT chain; the
    buffer is unlocked whenever it exists, and both objects are released
    at the end if they were created. *)
Definition WriteFrame (writer : option nat) (frameDuration timestamp : N) (fe : frame_env)
  : bool * list mf_call :=
  let hr1 := create_buffer_ok fe in
  let hr2 := hr1 && lock_ok fe in
  let hr3 := hr2 && copy_ok fe in
  let hr5 := hr3 && set_length_ok fe in
  let hr6 := hr5 && create_sample_ok fe in
  let hr7 := hr6 && add_buffer_ok fe in
  let hr8 := hr7 && set_time_ok fe in
  let hr9 := hr8 && set_duration_ok fe in
  let hr10 := hr9 && write_ok fe in
  (hr10,
   [CallMFCreateMemoryBuffer] ++
   (if hr1 then [CallLock] else []) ++
   (if hr2 then [CallMFCopyImage] else []) ++
   (if create_buffer_ok fe then [CallUnlock] else []) ++
   (if hr3 then [CallSetCurrentLength] else []) ++
   (if hr5 then [CallMFCreateSample] else []) ++
   (if hr6 then [CallAddBuffer] else []) ++
   (if hr7 then [CallSetSampleTime timestamp] else []) ++
   (if hr8 then [CallSetSampleDuration frameDuration] else []) ++
   (if hr9 then [CallWriteSample writer] else []) ++
   (if hr6 then [CallReleaseSample] else []) ++
   (if create_buffer_ok fe then [CallReleaseBuffer] else [])).

(** The scanline reversal of [AddFrame] when [flipY] is set: the same loop
    as the GDI backend's, with [unsigned stride = m_width * sizeof(uint32_t)]
    and [scanline2 = m_pixels.data() + (m_height - 1) * stride] in
    [unsigned] arithmetic ([m_height >= 1] whenever [m_pixels] is not
    empty). *)
Definition flip_pixels (width height : N) (mem : memory) : memory :=
  let stride := N.to_nat (U32.wrap (width * 4)) in
  let h := N.to_nat height in
  GDI.flip_loop h 0 h stride 0 (N.to_nat (U32.wrap ((height - 1) * N.of_nat stride)))
    mem (fun _ => Byte.x00).

(** [AddFrame(pixels, flipY, timestamp)]; [pixels] is [None] for nullptr,
    otherwise the memory it points to. *)
Definition AddFrame (s : VideoFileEncoder) (pixels : option memory) (flipY : bool)
  (timestamp : N) (fe : frame_env) : VideoFileEncoder * bool * list mf_call :=
  match pixels with
  | None => (s, false, [])
  | Some src =>
      if m_pixels_size s =? 0 then (s, false, [])
      else
        let mem := memcpy 0 0 (frame_bytes (m_width s) (m_height s)) (m_pixels s) src in
        let mem := if flipY then flip_pixels (m_width s) (m_height s) mem else mem in
        let s' := set_pixels mem s in
        let '(hr, calls) := WriteFrame (m_pSinkWriter s') (m_frameDuration s') timestamp fe in
        (s', hr, calls)
  end.

Definition GetWidth (s : VideoFileEncoder) : N := m_width s.
Definition GetHeight (s : VideoFileEncoder) : N := m_height s.
Definition GetFrameDuration (s : VideoFileEncoder) : N := m_frameDuration s.
Definition GetBitRate (s : VideoFileEncoder) : N := m_bitRate s.

(** Public calls a client can make. *)
Inductive op :=
| OpSetEncodingFormat (fmt : GUID)
| OpStart (finalize_ok : bool) (se : sink_env) (width height fps : N)
| OpStop (finalize_ok : bool)
| OpAddFrame (pixels : option memory) (flipY : bool) (timestamp : N) (fe : frame_env).

Definition step (s : VideoFileEncoder) (o : op) : VideoFileEncoder :=
  match o with
  | OpSetEncodingFormat fmt => fst (SetEncodingFormat s fmt)
  | OpStart fin se w h fps => fst (Start s fin se w h fps)
  | OpStop fin => fst (Stop s fin)
  | OpAddFrame px fl ts fe => fst (fst (AddFrame s px fl ts fe))
  end.

Definition run (s : VideoFileEncoder) (ops : list op) : VideoFileEncoder :=
  fold_left step ops s.

End Encoder.

(* ------------------------------------------------------------------ *)
(** * BmpWrite (captest.cpp) *)

Module Bmp.

(** Little-endian encoding of the fields of the two BMP headers. *)
Definition byte_of (x : N) : byte :=
  match Byte.of_N (x mod 256)%N with Some b => b | None => Byte.x00 end.

Definition le16 (x : N) : list byte := [byte_of x; byte_of (x / 256)%N].

Definition le32 (x : N) : list byte :=
  [byte_of x; byte_of (x / 256)%N; byte_of (x / 256 / 256)%N;
   byte_of (x / 256 / 256 / 256)%N].

(** [BITMAPFILEHEADER] (14 bytes): bfType, bfSize, bfReserved1,
    bfReserved2, bfOffBits. *)
Definition file_header (bfType bfSize bfOffBits : N) : list byte :=
  le16 bfType ++ le32 bfSize ++ le16 0 ++ le16 0 ++ le32 bfOffBits.

(** [BITMAPINFOHEADER] (40 bytes) with biCompression, biXPelsPerMeter,
    biYPelsPerMeter, biClrUsed and biClrImportant zero. *)
Definition info_header (biSize biWidth biHeight biPlanes biBitCount biSizeImage : N)
  : list byte :=
  le32 biSize ++ le32 biWidth ++ le32 biHeight ++ le16 biPlanes ++ le16 biBitCount ++
  le32 0 ++ le32 biSizeImage ++ le32 0 ++ le32 0 ++ le32 0 ++ le32 0.

(** [while (outStride % 4) outStride++;] on an [unsigned] (at most three
    increments). *)
Fixpoint pad4 (fuel : nat) (s : N) : N :=
  match fuel with
  | O => s
  | S f => if (s mod 4 =? 0)%N then s else pad4 f (U32.wrap (s + 1)%N)
  end.

(** [unsigned outStride = width * bitsPerPixel / 8;] then padded. *)
Definition out_stride (width bitsPerPixel : N) : N :=
  pad4 4 (U32.wrap (width * bitsPerPixel)%N / 8)%N.

Definition read_bytes (m : memory) (a n : nat) : list byte :=
  map (fun j => m (a + j)) (seq 0 n).

(** What the C runtime answers: [fopen_s] and each [fwrite], numbered in
    call order (0: file header, 1: info header, 2+y: scanline y). *)
Record fs_env := {
  fopen_ok : bool;
  fwrite_ok : nat -> bool
}.

(** The scanline loop: [n] rounds left at loop index [y], [scanline] the
    current offset from [pBits]; [None] when an fwrite failed. *)
Fixpoint write_scanlines (n y : nat) (e : fs_env) (bits : memory)
  (scanline stride outStride : nat) : option (list byte) :=
  match n with
  | O => Some []
  | S n' =>
      if fwrite_ok e (2 + y) then
        match write_scanlines n' (S y) e bits (scanline - stride) stride outStride with
        | Some rest => Some (read_bytes bits scanline outStride ++ rest)
        | None => None
        end
      else None
  end.

(** [BmpWrite(szPath, width, height, stride, bitsPerPixel, pBits)]:
    returns the result and the file at [szPath] afterwards ([None]: no
    file), given the file [prior] there before.  [szPath] is [None] for
    nullptr, [pBits] the memory it points to. *)
Definition BmpWrite (szPath : option String.string) (width height stride bitsPerPixel : N)
  (pBits : option memory) (e : fs_env) (prior : option (list byte))
  : bool * option (list byte) :=
  let bad_path := match szPath with
                  | None => true
                  | Some String.EmptyString => true
                  | Some _ => false
                  end in
  if bad_path || (width <? 1)%N || (height <? 1)%N ||
     (stride <? U32.wrap (width * 3)%N)%N ||
     (negb (bitsPerPixel =? 24)%N && negb (bitsPerPixel =? 32)%N)
  then (false, prior)
  else
    match pBits with
    | None => (false, prior)
    | Some bits =>
        if negb (fopen_ok e) then (false, prior)
        else
          let outStride := out_stride width bitsPerPixel in
          let biSizeImage := U32.wrap (outStride * height)%N in
          let ih := info_header 40 width height 1 bitsPerPixel biSizeImage in
          let fh := file_header (66 + 256 * 77)%N (U32.wrap (14 + 40 + biSizeImage)%N) (14 + 40)%N in
          if negb (fwrite_ok e 0) then (false, None)           (* fclose; _unlink *)
          else if negb (fwrite_ok e 1) then (false, None)
          else
            match write_scanlines (N.to_nat height) 0 e bits
                    (N.to_nat (U32.wrap (stride * (height - 1))%N))
                    (N.to_nat stride) (N.to_nat outStride) with
            | None => (false, None)
            | Some rows => (true, Some (fh ++ ih ++ rows))
            end
    end.

End Bmp.

(* ================================================================== *)
(** * Properties *)

(* ------------------------------------------------------------------ *)
(** ** Scanline reordering of the GDI backend *)

Module GDIFlip.
Import GDI.

(** Row [q] of the DIB after the loop has run from row [y] to the middle. *)
Definition rowmap (y h q : nat) : nat :=
  if ((y <=? q) && (q <? h / 2)) || ((y <=? h - 1 - q) && (h - 1 - q <? h / 2))
  then h - 1 - q else q.

Lemma row_test (st y q j : nat) :
  j < st -> ((y * st <=? q * st + j) && (q * st + j <? y * st + st)) = (q =? y).
Proof.
  intros Hj.
  destruct (Nat.eqb_spec q y) as [->|Hne].
  - apply andb_true_iff; split; [apply Nat.leb_le | apply Nat.ltb_lt]; lia.
  - apply andb_false_iff.
    assert (q < y \/ y < q) as [Hlt|Hgt] by lia.
    + left. apply Nat.leb_gt.
      assert (S q * st <= y * st) by (apply Nat.mul_le_mono_r; lia).
      simpl in *; lia.
    + right. apply Nat.ltb_ge.
      assert (S y * st <= q * st) by (apply Nat.mul_le_mono_r; lia).
      simpl in *; lia.
Qed.

Lemma swap_body_row (st y h q j : nat) (mem tmp : memory) :
  j < st -> y < h - 1 - y ->
  fst (swap_body st (y * st) ((h - 1 - y) * st) mem tmp) (q * st + j) =
  mem ((if q =? y then h - 1 - y else if q =? h - 1 - y then y else q) * st + j).
Proof.
  intros Hj Hy. unfold swap_body, memcpy; simpl.
  rewrite (row_test st (h - 1 - y) q j Hj).
  destruct (Nat.eqb_spec q (h - 1 - y)) as [->|Hne].
  - replace ((h - 1 - y) * st + j - (h - 1 - y) * st) with j by lia.
    replace (j <? st) with true by (symmetry; apply Nat.ltb_lt; lia).
    replace (h - 1 - y =? y) with false by (symmetry; apply Nat.eqb_neq; lia).
    simpl. f_equal. lia.
  - rewrite (row_test st y q j Hj).
    destruct (Nat.eqb_spec q y) as [->|Hne'].
    + f_equal. lia.
    + reflexivity.
Qed.

Lemma rowmap_lt (y h q : nat) : q < h -> rowmap y h q < h.
Proof. unfold rowmap; intros; destruct (_ || _); lia. Qed.

Lemma rowmap_done (y h q : nat) : h / 2 <= y -> rowmap y h q = q.
Proof.
  intros Hy. unfold rowmap.
  destruct (Nat.leb_spec y q), (Nat.ltb_spec q (h / 2)),
           (Nat.leb_spec y (h - 1 - q)), (Nat.ltb_spec (h - 1 - q) (h / 2));
    simpl; lia.
Qed.

Lemma rowmap_step (y h q : nat) :
  y < h / 2 -> q < h ->
  (let r := rowmap (S y) h q in
   if r =? y then h - 1 - y else if r =? h - 1 - y then y else r) = rowmap y h q.
Proof.
  intros Hy Hq. cbv zeta.
  assert (2 * (h / 2) <= h /\ h <= 2 * (h / 2) + 1) as [H1 H2].
  { pose proof (Nat.div_mod h 2 ltac:(lia)) as Hd.
    pose proof (Nat.mod_upper_bound h 2 ltac:(lia)). lia. }
  unfold rowmap.
  generalize dependent (h / 2). intros m Hy H1 H2.
  destruct (Nat.leb_spec (S y) q), (Nat.ltb_spec q m),
           (Nat.leb_spec (S y) (h - 1 - q)), (Nat.ltb_spec (h - 1 - q) m),
           (Nat.leb_spec y q), (Nat.leb_spec y (h - 1 - q)); simpl;
  repeat match goal with
         | |- context [?a =? ?b] => destruct (Nat.eqb_spec a b)
         end; lia.
Qed.

Lemma flip_loop_spec (fuel : nat) : forall y h st mem tmp q j,
  y <= h / 2 -> h / 2 - y <= fuel -> q < h -> j < st ->
  flip_loop fuel y h st (y * st) ((h - 1 - y) * st) mem tmp (q * st + j) =
  mem (rowmap y h q * st + j).
Proof.
  induction fuel as [|f IH]; intros y h st mem tmp q j Hy Hf Hq Hj.
  - simpl. rewrite rowmap_done by lia. reflexivity.
  - cbn [flip_loop]. destruct (Nat.ltb_spec y (h / 2)) as [Hlt|Hge].
    + assert (Hh : 2 * (h / 2) <= h) by (apply Nat.Div0.mul_div_le).
      destruct (swap_body st (y * st) ((h - 1 - y) * st) mem tmp)
        as [mem' tmp'] eqn:Hsw.
      cbv beta iota.
      replace (y * st + st) with (S y * st) by (simpl; lia).
      replace ((h - 1 - y) * st - st) with ((h - 1 - S y) * st)
        by (rewrite !Nat.mul_sub_distr_r; simpl; lia).
      rewrite IH by (lia || apply rowmap_lt; lia).
      replace mem' with (fst (swap_body st (y * st) ((h - 1 - y) * st) mem tmp))
        by (rewrite Hsw; reflexivity).
      rewrite swap_body_row by lia.
      rewrite <- (rowmap_step y h q) by lia. reflexivity.
    + rewrite rowmap_done by lia. reflexivity.
Qed.

Lemma flip_scanlines_row (h st : nat) (mem : memory) (i j : nat) :
  i < h -> j < st ->
  flip_scanlines h st mem (i * st + j) = mem ((h - 1 - i) * st + j).
Proof.
  intros Hi Hj. unfold flip_scanlines.
  replace ((h - 1) * st) with ((h - 1 - 0) * st) by (f_equal; lia).
  replace 0 with (0 * st) at 2 by reflexivity.
  assert (2 * (h / 2) <= h /\ h <= 2 * (h / 2) + 1) as [H1 H2].
  { pose proof (Nat.div_mod h 2 ltac:(lia)) as Hd.
    pose proof (Nat.mod_upper_bound h 2 ltac:(lia)). lia. }
  rewrite flip_loop_spec by lia.
  replace (rowmap 0 h i) with (h - 1 - i); [reflexivity|].
  unfold rowmap. generalize dependent (h / 2). intros m H1 H2.
  destruct (Nat.ltb_spec i m), (Nat.ltb_spec (h - 1 - i) m); simpl; lia.
Qed.

End GDIFlip.

(* ------------------------------------------------------------------ *)
(** ** GDI backend claims *)

Module GDIClaims.
Import GDI GDIFlip.

(** A two-line bottom-up DIB as BitBlt leaves it: the bottom screen line
    (color 0x11) first, the top screen line (0x22) last. *)
Definition sample_blit : memory :=
  fun a => if a <? 4 then Byte.x11 else Byte.x22.

Definition started_1x2 : ScreenCaptureGDI :=
  mk 1 2 32 4 (Some 1) (Some 2) (Some 3) (Some 4096) (fun _ => Byte.x00).

Example capture_top_row_first :
  pixels (fst (CaptureFrame started_1x2 true sample_blit)) 0 = Byte.x22 /\
  pixels (fst (CaptureFrame started_1x2 true sample_blit)) 4 = Byte.x11.
Proof. split; reflexivity. Qed.

Lemma pad_stride_mul4 (w : nat) : pad_stride 4 (w * 32 / 8) = w * 4.
Proof.
  replace (w * 32) with (w * 4 * 8) by lia.
  rewrite Nat.div_mul by lia. cbn [pad_stride].
  rewrite Nat.Div0.mod_mul. reflexivity.
Qed.

(** C4: on a started GDI session ([m_hdcMem] non-null, width non-zero) a
    capture whose blit succeeded returns true and leaves row [i] of the
    frame buffer equal to row [height-1-i] of the bottom-up blitted image,
    for every row [i < height] and every byte of the row. *)
Theorem C4_capture_flips_rows (s : ScreenCaptureGDI) (blitted : memory) :
  m_hdcMem s <> None -> m_width s <> 0 ->
  let '(s', ok) := CaptureFrame s true blitted in
  ok = true /\ m_height s' = m_height s /\ m_stride s' = m_stride s /\
  forall i j, i < m_height s -> j < m_stride s ->
    pixels s' (i * m_stride s + j) = blitted ((m_height s - 1 - i) * m_stride s + j).
Proof.
  intros Hdc Hw. unfold CaptureFrame.
  destruct (m_hdcMem s) as [dc|]; [|congruence].
  replace (m_width s =? 0) with false by (symmetry; apply Nat.eqb_neq; exact Hw).
  simpl. repeat split.
  intros i j Hi Hj. apply flip_scanlines_row; assumption.
Qed.

Lemma C4_witness :
  (m_hdcMem started_1x2 <> None /\ m_width started_1x2 <> 0) /\
  (let '(s', ok) := CaptureFrame started_1x2 true sample_blit in
   ok = true /\ m_height s' = m_height started_1x2 /\
   m_stride s' = m_stride started_1x2 /\
   forall i j, i < m_height started_1x2 -> j < m_stride started_1x2 ->
     pixels s' (i * m_stride started_1x2 + j) =
     sample_blit ((m_height started_1x2 - 1 - i) * m_stride started_1x2 + j)).
Proof.
  split.
  - split; simpl; discriminate.
  - apply (C4_capture_flips_rows started_1x2 sample_blit); simpl; discriminate.
Defined.

(** C10: the return value of the GDI [CaptureFrame] is true exactly when
    [m_hdcMem] is non-null and the width is non-zero, whatever BitBlt
    returned; a capture keeps [m_hdcMem] and the width, so once started
    every later capture returns true. *)
Theorem C10_gdi_capture_result (s : ScreenCaptureGDI) (blit_ok : bool) (blitted : memory) :
  snd (CaptureFrame s blit_ok blitted) =
    match m_hdcMem s with None => false | Some _ => negb (m_width s =? 0) end /\
  m_hdcMem (fst (CaptureFrame s blit_ok blitted)) = m_hdcMem s /\
  m_width (fst (CaptureFrame s blit_ok blitted)) = m_width s.
Proof.
  unfold CaptureFrame.
  destruct (m_hdcMem s) eqn:E; destruct (m_width s =? 0); simpl; auto.
Qed.

(** The session used for the failing inputs below: one 1920x1080 monitor,
    every GDI call succeeding, DIB pixels at address 4096. *)
Definition env_ok : startup_env := {|
  cx_screen := 1920; cy_screen := 1080; cmonitors := 1;
  cx_virtual := 1920; cy_virtual := 1080;
  create_dc := Some 1; dib_section := Some 2; dib_bits := Some 4096;
  dib_contents := fun _ => Byte.x00; select_old := Some 3 |}.

(** The same display, but CreateCompatibleDC returns NULL. *)
Definition env_no_dc : startup_env := {|
  cx_screen := 1920; cy_screen := 1080; cmonitors := 1;
  cx_virtual := 1920; cy_virtual := 1080;
  create_dc := None; dib_section := None; dib_bits := None;
  dib_contents := fun _ => Byte.x00; select_old := None |}.

(** C2 (evaluation at the failing inputs): after a successful Startup and a
    Shutdown the width is 0 but GetFrameBuffer still returns the freed DIB
    pointer; after a Startup that fails at CreateCompatibleDC the width is
    1920 and GetFrameBuffer returns nullptr. *)
Theorem C2_gdi_buffer_metadata_mismatch :
  (GetFrameWidth (run init [OpStartup env_ok; OpShutdown]) = 0 /\
   GetFrameBuffer (run init [OpStartup env_ok; OpShutdown]) = Some 4096) /\
  (snd (Startup init env_no_dc) = false /\
   GetFrameWidth (run init [OpStartup env_no_dc]) = 1920 /\
   GetFrameBuffer (run init [OpStartup env_no_dc]) = None).
Proof. vm_compute. repeat split. Qed.

(** The GDI metadata after a successful Startup, before any capture. *)
Lemma gdi_startup_metadata (s g : ScreenCaptureGDI) (e : startup_env) :
  Startup s e = (g, true) ->
  let w := if 1 <? cmonitors e then cx_virtual e else cx_screen e in
  let h := if 1 <? cmonitors e then cy_virtual e else cy_screen e in
  GetFrameWidth g = w /\ GetFrameHeight g = h /\
  GetFrameDepth g = 32 /\ GetFrameStride g = w * 4.
Proof.
  unfold Startup. rewrite pad_stride_mul4. cbv zeta.
  destruct (create_dc e); [|discriminate].
  destruct (dib_section e), (dib_bits e); try discriminate.
  intros H; injection H as <-.
  unfold GetFrameWidth, GetFrameHeight, GetFrameDepth, GetFrameStride.
  cbn [m_width m_height m_depth m_stride]. auto.
Qed.

End GDIClaims.

(* ------------------------------------------------------------------ *)
(** ** DX11 backend claims *)

Module DX11Claims.
Import DX11.

Definition initialized (s : ScreenCaptureDX11) : bool :=
  m_device s && m_deviceContext s && m_outputDuplication s.

Definition metadata_zero (s : ScreenCaptureDX11) : Prop :=
  GetFrameWidth s = 0 /\ GetFrameHeight s = 0 /\
  GetFrameDepth s = 0 /\ GetFrameStride s = 0.

(** The branch conditions of the retry loop that lead to another attempt. *)
Definition is_retry (r : acquire_result) : bool :=
  hr_ok r && (last_present_time r =? 0)%Z || hr_ok r && negb (resource r).

Definition is_acquire (ev : event) : bool :=
  match ev with EvAcquireNextFrame => true | _ => false end.

(** Number of calls to the duplication session's AcquireNextFrame. *)
Definition attempts (evs : list event) : nat := length (filter is_acquire evs).

Lemma attempts_app (l1 l2 : list event) :
  attempts (l1 ++ l2) = attempts l1 + attempts l2.
Proof. unfold attempts. rewrite filter_app, length_app. reflexivity. Qed.

(** Case analysis on every branch of [CaptureFrame]. *)
Ltac split_capture :=
  repeat match goal with
  | |- context [AcquireNextFrame ?e] =>
      let ok := fresh "ok" in let img := fresh "img" in let evs := fresh "evs" in
      destruct (AcquireNextFrame e) as [[ok img] evs]
  | |- context [if ?b then _ else _] => destruct b
  end; cbn in *.

(** Characterisation of the retry loop, by induction on the rounds left. *)
Lemma acquire_loop_spec (env : capture_env) (n : nat) : forall a hr res,
  let '(hr', res', evs) := acquire_loop n a env hr res in
  let m := attempts evs in
  m <= n /\ (0 < n -> 0 < m) /\ (m = 0 -> hr' = hr /\ res' = res) /\
  (forall k, S k < m -> is_retry (acquire env (a + k)) = true) /\
  (0 < m -> is_retry (acquire env (a + (m - 1))) = false ->
   hr' = hr_ok (acquire env (a + (m - 1))) /\
   res' = resource (acquire env (a + (m - 1)))) /\
  (0 < m -> is_retry (acquire env (a + (m - 1))) = true -> res' = false /\ m = n).
Proof.
  induction n as [|n IH]; intros a hr res; cbn [acquire_loop].
  - cbn. repeat split; intros; lia.
  - assert (Hr : is_retry (acquire env a) =
      hr_ok (acquire env a) && (last_present_time (acquire env a) =? 0)%Z
      || hr_ok (acquire env a) && negb (resource (acquire env a))) by reflexivity.
    destruct (hr_ok (acquire env a) && (last_present_time (acquire env a) =? 0)%Z)
      eqn:E1;
    [| destruct (hr_ok (acquire env a) && negb (resource (acquire env a))) eqn:E2].
    1,2: assert (Hra : is_retry (acquire env a) = true)
           by (rewrite Hr; reflexivity).
    3: assert (Hra : is_retry (acquire env a) = false) by (rewrite Hr; reflexivity).
    1,2:
      match goal with |- context [acquire_loop ?k (S ?b) ?en ?h ?r] =>
        specialize (IH (S b) h r); destruct (acquire_loop k (S b) en h r) as [[hr' res'] evs]
      end;
      change (attempts (EvAcquireNextFrame :: EvReleaseFrame :: EvSleep :: evs))
        with (S (attempts evs));
      destruct IH as (Hle & Hpos & Hzero & Hret & Hstop & Hlast);
      destruct (attempts evs) as [|m1] eqn:Hm.
    (* a retry branch after which the loop made no further attempt (n = 0) *)
    1,3:
      assert (n = 0) by (destruct n; [reflexivity | specialize (Hpos ltac:(lia)); lia]);
      destruct (Hzero eq_refl) as [-> ->];
      refine (conj _ (conj _ (conj _ (conj _ (conj _ _)))));
      [ lia | lia | discriminate
      | intros k Hk; assert (k = 0) as -> by lia; rewrite Nat.add_0_r; exact Hra
      | cbn; rewrite Nat.add_0_r, Hra; discriminate
      | cbn; rewrite Nat.add_0_r; intros _ _; split; [|lia];
        first [ reflexivity
              | apply andb_true_iff in E2 as [_ E2]; apply negb_true_iff in E2; exact E2 ] ].
    (* a retry branch followed by further attempts *)
    1,2:
      refine (conj _ (conj _ (conj _ (conj _ (conj _ _)))));
      [ lia | lia | discriminate
      | intros [|k] Hk;
        [ rewrite Nat.add_0_r; exact Hra
        | replace (a + S k) with (S a + k) by lia; apply Hret; lia ]
      | replace (a + (S (S m1) - 1)) with (S a + (S m1 - 1)) by lia;
        intros _ H; apply Hstop; [lia | exact H]
      | replace (a + (S (S m1) - 1)) with (S a + (S m1 - 1)) by lia;
        intros _ H; specialize (Hlast ltac:(lia) H); split; [tauto | lia] ].
    (* break: exactly one attempt *)
    cbn. refine (conj _ (conj _ (conj _ (conj _ (conj _ _))))).
    + lia.
    + lia.
    + discriminate.
    + intros k Hk; lia.
    + rewrite Nat.add_0_r. auto.
    + rewrite Nat.add_0_r, Hra; discriminate.
Qed.

(** Every branch of [CaptureFrame]: the calls to AcquireNextFrame are those
    of the retry loop (none when not initialized), and a true result needs
    an initialized session and a loop that ended on a successful
    acquisition with a resource. *)
Lemma capture_frame_shape (s : ScreenCaptureDX11) (e : capture_env) :
  let '(hr, res, evs0) := acquire_loop 4 0 e false false in
  let '(_, ok, evs) := CaptureFrame s e in
  attempts evs = (if initialized s then attempts evs0 else 0) /\
  (ok = true -> initialized s = true /\ hr = true /\ res = true).
Proof.
  unfold CaptureFrame, AcquireNextFrame, CopyStagingTextureToMemory, initialized.
  destruct (acquire_loop 4 0 e false false) as [[hr res] evs0].
  cbn [clear_metadata set_staging m_device m_deviceContext m_outputDuplication].
  destruct (m_device s), (m_deviceContext s), (m_outputDuplication s); cbn [negb orb andb];
    try (split; [reflexivity | discriminate]).
  destruct hr, res; cbn [negb orb andb];
    try (split; [reflexivity | discriminate]).
  destruct (query_texture_ok e); cbn [negb orb andb];
    [| split; [rewrite attempts_app; cbn; lia | discriminate]].
  destruct (IsFormat32bit (desc_format e)); cbn [negb];
    [| split; [rewrite !attempts_app; cbn; lia | discriminate]].
  destruct (create_staging_ok e); cbn [negb];
    [| split; [rewrite !attempts_app; cbn; lia | discriminate]].
  destruct (map_ok e); cbn [negb];
    split; try (rewrite !attempts_app; cbn; lia); auto.
Qed.

(** A failed capture always leaves the metadata at zero. *)
Lemma capture_fail_zero (s : ScreenCaptureDX11) (e : capture_env) :
  snd (fst (CaptureFrame s e)) = false -> metadata_zero (fst (fst (CaptureFrame s e))).
Proof.
  unfold CaptureFrame, AcquireNextFrame, CopyStagingTextureToMemory, metadata_zero.
  destruct (acquire_loop 4 0 e false false) as [[hr res] evs0].
  cbn [clear_metadata set_staging m_device m_deviceContext m_outputDuplication].
  repeat match goal with
         | |- context [if ?b then _ else _] => destruct b
         end; cbn; intros; try discriminate; repeat split.
Qed.

Lemma startup_zero (s : ScreenCaptureDX11) (e : startup_env) :
  metadata_zero (fst (Startup s e)).
Proof.
  unfold Startup, metadata_zero. destruct (negb _); cbn; repeat split.
Qed.

Lemma shutdown_keeps_metadata (s : ScreenCaptureDX11) :
  metadata_zero s -> metadata_zero (fst (Shutdown s)).
Proof. unfold metadata_zero; cbn; tauto. Qed.

(** Along any sequence of operations in which no capture succeeds, zero
    metadata stays zero. *)
Lemma run_no_capture_zero (ops : list op) : forall s,
  metadata_zero s -> snd (run s ops) = false -> metadata_zero (fst (run s ops)).
Proof.
  induction ops as [|o ops IH]; intros s Hz Hrun; [exact Hz|].
  destruct o as [e|e|]; cbn [run] in *.
  - apply IH; [apply startup_zero | exact Hrun].
  - pose proof (capture_fail_zero s e) as Hf.
    destruct (CaptureFrame s e) as [[s' ok] evs]; cbn in Hf.
    destruct (run s' ops) as [s'' any] eqn:Hr; cbn in *.
    apply orb_false_iff in Hrun as [Hok Hany]. subst ok.
    specialize (IH s' (Hf eq_refl)). rewrite Hr in IH. apply IH. exact Hany.
  - apply IH; [apply shutdown_keeps_metadata, Hz | exact Hrun].
Qed.

Definition started : ScreenCaptureDX11 := mk true true false true [] 0 0 0 0.

(** The driver hands back a finished 2x1 frame in format [fmt] on the first
    attempt; every later step succeeds. *)
Definition env_frame (fmt : nat) : capture_env := {|
  acquire := fun _ => {| hr_ok := true; last_present_time := 1%Z; resource := true |};
  query_texture_ok := true; desc_format := fmt; desc_width := 2; desc_height := 1;
  create_staging_ok := true; map_ok := true; row_pitch := 8;
  mapped_data := fun _ => Byte.x7f |}.

(** AcquireNextFrame always times out. *)
Definition env_timeout : capture_env := {|
  acquire := fun _ => {| hr_ok := false; last_present_time := 0%Z; resource := false |};
  query_texture_ok := true; desc_format := DXGI_FORMAT_B8G8R8A8_UNORM;
  desc_width := 2; desc_height := 1;
  create_staging_ok := true; map_ok := true; row_pitch := 8;
  mapped_data := fun _ => Byte.x7f |}.

Example capture_supported_frame :
  CaptureFrame started (env_frame DXGI_FORMAT_B8G8R8X8_UNORM) =
  (mk true true false true (repeat Byte.x7f 8) 2 1 32 8, true,
   [EvAcquireNextFrame; EvQueryTexture; EvGetDesc; EvCreateStaging;
    EvCopyResource; EvMap; EvUnmap; EvReleaseStaging; EvReleaseFrame]).
Proof. reflexivity. Qed.

(** C1 (evaluation at the failing input): on an initialized session whose
    first AcquireNextFrame succeeds with a finished frame and a texture, a
    duplication format outside the six BGRA/BGRX variants
    (DXGI_FORMAT_R16G16B16A16_FLOAT) makes CaptureFrame return false after
    the acquisition without ever calling ReleaseFrame. *)
Theorem C1_format_mismatch_skips_release :
  let '(_, ok, evs) := CaptureFrame started (env_frame DXGI_FORMAT_R16G16B16A16_FLOAT) in
  fst (AcquireNextFrame (env_frame DXGI_FORMAT_R16G16B16A16_FLOAT)) = (true, true) /\
  ok = false /\
  evs = [EvAcquireNextFrame; EvQueryTexture; EvGetDesc] /\
  ~ In EvReleaseFrame evs.
Proof.
  vm_compute. repeat split. intros [H|[H|[H|[]]]]; discriminate.
Qed.

(** The other paths after a successful acquisition with a supported format
    do end with ReleaseFrame. *)
Lemma release_after_supported_format (s : ScreenCaptureDX11) (e : capture_env) :
  initialized s = true -> fst (AcquireNextFrame e) = (true, true) ->
  IsFormat32bit (desc_format e) = true ->
  exists pre, snd (CaptureFrame s e) = pre ++ [EvReleaseFrame].
Proof.
  unfold initialized. intros Hi Ha Hf. unfold CaptureFrame.
  cbn [clear_metadata m_device m_deviceContext m_outputDuplication].
  destruct (m_device s), (m_deviceContext s), (m_outputDuplication s);
    try discriminate; cbn [negb orb].
  destruct (AcquireNextFrame e) as [[ok img] evs]; cbn in Ha; injection Ha as -> ->.
  cbn [negb orb]. rewrite Hf. cbn [negb].
  destruct (create_staging_ok e); cbn [negb].
  - destruct (CopyStagingTextureToMemory _ e) as [[s2 ok] evs2].
    exists ((((evs ++ [EvGetDesc]) ++ [EvCreateStaging; EvCopyResource]) ++ evs2)
            ++ [EvReleaseStaging]).
    cbn [snd]. rewrite <- !app_assoc. reflexivity.
  - exists ((evs ++ [EvGetDesc]) ++ [EvCreateStaging]).
    cbn [snd]. rewrite <- !app_assoc. reflexivity.
Qed.

(** C6: whenever the DX11 CaptureFrame returns false, the frame width,
    height, stride and depth are zero in the state it leaves. *)
Theorem C6_failed_capture_zero_metadata (s : ScreenCaptureDX11) (e : capture_env) :
  snd (fst (CaptureFrame s e)) = false -> metadata_zero (fst (fst (CaptureFrame s e))).
Proof. apply capture_fail_zero. Qed.

Lemma C6_witness :
  snd (fst (CaptureFrame (mk true true false true (repeat Byte.x7f 8) 2 1 32 8)
                         env_timeout)) = false /\
  metadata_zero (fst (fst (CaptureFrame (mk true true false true (repeat Byte.x7f 8) 2 1 32 8)
                                        env_timeout))).
Proof.
  split; [vm_compute; reflexivity|].
  apply C6_failed_capture_zero_metadata. vm_compute. reflexivity.
Defined.

(** In the calls issued by the retry loop, the [k]-th AcquireNextFrame is
    at position [3 * k]; when its outcome is a retry one it is directly
    followed by ReleaseFrame and Sleep. *)
Lemma acquire_loop_retry_events (env : capture_env) (n : nat) : forall a hr res k,
  k < attempts (snd (acquire_loop n a env hr res)) ->
  is_retry (acquire env (a + k)) = true ->
  nth_error (snd (acquire_loop n a env hr res)) (3 * k) = Some EvAcquireNextFrame /\
  nth_error (snd (acquire_loop n a env hr res)) (3 * k + 1) = Some EvReleaseFrame /\
  nth_error (snd (acquire_loop n a env hr res)) (3 * k + 2) = Some EvSleep.
Proof.
  induction n as [|n IH]; intros a hr res k; cbn [acquire_loop].
  - cbn. lia.
  - assert (Hr : is_retry (acquire env a) =
      hr_ok (acquire env a) && (last_present_time (acquire env a) =? 0)%Z
      || hr_ok (acquire env a) && negb (resource (acquire env a))) by reflexivity.
    destruct (hr_ok (acquire env a) && (last_present_time (acquire env a) =? 0)%Z)
      eqn:E1;
    [| destruct (hr_ok (acquire env a) && negb (resource (acquire env a))) eqn:E2].
    1,2:
      match goal with |- context [acquire_loop ?m (S ?b) ?en ?h ?r] =>
        specialize (IH (S b) h r); destruct (acquire_loop m (S b) en h r) as [[hr' res'] evs]
      end; cbn [snd] in *;
      change (attempts (EvAcquireNextFrame :: EvReleaseFrame :: EvSleep :: evs))
        with (S (attempts evs));
      destruct k as [|k]; [intros _ _; cbn; auto|];
      intros Hk Hret;
      replace (3 * S k) with (S (S (S (3 * k)))) by lia;
      replace (S (S (S (3 * k))) + 1) with (S (S (S (3 * k + 1)))) by lia;
      replace (S (S (S (3 * k))) + 2) with (S (S (S (3 * k + 2)))) by lia;
      cbn [nth_error];
      apply (IH k); [lia | replace (S a + k) with (a + S k) by lia; exact Hret].
    cbn. intros Hk Hret. assert (k = 0) as -> by lia.
    rewrite Nat.add_0_r, Hr in Hret. discriminate.
Qed.

(** The calls of an initialized DX11 CaptureFrame start with those of the
    retry loop. *)
Lemma capture_frame_loop_prefix (s : ScreenCaptureDX11) (e : capture_env) :
  initialized s = true ->
  exists rest, snd (CaptureFrame s e) = snd (acquire_loop 4 0 e false false) ++ rest.
Proof.
  unfold initialized, CaptureFrame, AcquireNextFrame, CopyStagingTextureToMemory.
  intros Hi.
  destruct (acquire_loop 4 0 e false false) as [[hr res] evs0]. cbn [snd].
  cbn [clear_metadata set_staging m_device m_deviceContext m_outputDuplication].
  destruct (m_device s), (m_deviceContext s), (m_outputDuplication s);
    try discriminate Hi; cbn [negb orb].
  repeat match goal with
         | |- context [if ?b then _ else _] => destruct b
         end; cbn [snd];
  first [ exists []; rewrite app_nil_r; reflexivity
        | eexists; rewrite <- ?app_assoc; reflexivity ].
Qed.

(** C7: a DX11 CaptureFrame makes at most 4 calls to AcquireNextFrame;
    every attempt but the last had a retry outcome (not yet composited, or
    no resource); an attempt whose [hr] failed (timeout or driver error) is
    the last one and the call returns false; a retry outcome releases the
    partial frame: the call to AcquireNextFrame of that attempt, at
    position [3 * k] of the calls issued, is directly followed by
    ReleaseFrame and Sleep; and it is followed by another attempt unless
    the 4 attempts are used up. *)
Theorem C7_bounded_attempts (s : ScreenCaptureDX11) (e : capture_env) :
  let '(_, ok, evs) := CaptureFrame s e in
  let n := attempts evs in
  n <= 4 /\
  (forall k, S k < n -> is_retry (acquire e k) = true) /\
  (forall k, k < n -> hr_ok (acquire e k) = false -> S k = n /\ ok = false) /\
  (forall k, k < n -> is_retry (acquire e k) = true ->
     nth_error evs (3 * k) = Some EvAcquireNextFrame /\
     nth_error evs (3 * k + 1) = Some EvReleaseFrame /\
     nth_error evs (3 * k + 2) = Some EvSleep) /\
  (forall k, k < n -> is_retry (acquire e k) = true -> S k < n \/ n = 4).
Proof.
  assert (Hrel : forall k, k < attempts (snd (CaptureFrame s e)) ->
     is_retry (acquire e k) = true ->
     nth_error (snd (CaptureFrame s e)) (3 * k) = Some EvAcquireNextFrame /\
     nth_error (snd (CaptureFrame s e)) (3 * k + 1) = Some EvReleaseFrame /\
     nth_error (snd (CaptureFrame s e)) (3 * k + 2) = Some EvSleep).
  { intros k Hk Hr.
    pose proof (capture_frame_shape s e) as Hsh.
    destruct (acquire_loop 4 0 e false false) as [[hr0 res0] evs0] eqn:Hl.
    destruct (CaptureFrame s e) as [[s0 ok0] evs1] eqn:Hc. cbn [snd] in *.
    destruct Hsh as [Hn _].
    destruct (initialized s) eqn:Hi; [|lia].
    destruct (capture_frame_loop_prefix s e Hi) as [rest Hp].
    rewrite Hc, Hl in Hp. cbn [snd] in Hp. subst evs1.
    pose proof (acquire_loop_retry_events e 4 0 false false k) as Hev.
    rewrite Hl in Hev. cbn [snd Nat.add] in Hev.
    assert (Hk0 : k < attempts evs0) by lia.
    destruct (Hev Hk0 Hr) as (H0 & H1 & H2).
    rewrite !nth_error_app1 by (apply nth_error_Some; congruence).
    auto. }
  revert Hrel.
  pose proof (capture_frame_shape s e) as Hshape.
  pose proof (acquire_loop_spec e 4 0 false false) as Hloop.
  destruct (acquire_loop 4 0 e false false) as [[hr res] evs0].
  destruct (CaptureFrame s e) as [[s' ok] evs].
  destruct Hshape as [Hn Hok]. cbv zeta in *.
  destruct Hloop as (Hle & Hpos & _ & Hret & Hstop & Hlast).
  cbn [Nat.add] in Hret, Hstop, Hlast.
  intros Hrel. cbn [snd] in Hrel. rewrite Hn in Hrel |- *.
  destruct (initialized s) eqn:Hi; [| repeat split; intros; lia].
  set (m := attempts evs0) in *.
  assert (Hm : 0 < m) by (apply Hpos; lia).
  refine (conj Hle (conj _ (conj _ (conj Hrel _)))).
  - intros k Hk. apply (Hret k Hk).
  - intros k Hk Hfail.
    assert (Hnr : is_retry (acquire e k) = false)
      by (unfold is_retry; rewrite Hfail; reflexivity).
    assert (Hk' : S k = m).
    { destruct (Nat.eq_dec (S k) m) as [|Hne]; [assumption|].
      rewrite (Hret k ltac:(lia)) in Hnr; discriminate. }
    split; [exact Hk'|].
    replace k with (m - 1) in Hnr, Hfail by lia.
    destruct (Hstop Hm Hnr) as [Hhr _].
    destruct ok; [|reflexivity].
    destruct (Hok eq_refl) as (_ & Hh & _). congruence.
  - intros k Hk Hr.
    destruct (Nat.eq_dec (S k) m) as [Heq|Hne]; [|left; lia].
    right. replace k with (m - 1) in Hr by lia.
    destruct (Hlast Hm Hr) as [_ H4]. exact H4.
Qed.

(** The six formats [IsFormat32bit] accepts. *)
Definition bgra_formats : list nat :=
  [DXGI_FORMAT_B8G8R8A8_UNORM; DXGI_FORMAT_B8G8R8X8_UNORM;
   DXGI_FORMAT_B8G8R8A8_TYPELESS; DXGI_FORMAT_B8G8R8A8_UNORM_SRGB;
   DXGI_FORMAT_B8G8R8X8_TYPELESS; DXGI_FORMAT_B8G8R8X8_UNORM_SRGB].

Lemma IsFormat32bit_spec (fmt : nat) : IsFormat32bit fmt = true <-> In fmt bgra_formats.
Proof.
  unfold IsFormat32bit, bgra_formats.
  repeat match goal with
         | |- context [fmt =? ?c] => destruct (Nat.eqb_spec fmt c)
         end; cbn; split; intros H; try tauto; try discriminate;
  repeat destruct H as [H|H]; try lia; tauto.
Qed.

(** C8: on an initialized session whose acquisition succeeded, a format
    outside the six BGRA/BGRX variants makes CaptureFrame return false
    having issued nothing beyond the acquisition and GetDesc (no staging
    texture, no copy); a format among them leads to the staging-texture
    creation, and to the GPU copy when that creation succeeds. *)
Theorem C8_format_gate (s : ScreenCaptureDX11) (e : capture_env) :
  initialized s = true -> fst (AcquireNextFrame e) = (true, true) ->
  (IsFormat32bit (desc_format e) = true <-> In (desc_format e) bgra_formats) /\
  (IsFormat32bit (desc_format e) = false ->
     snd (fst (CaptureFrame s e)) = false /\
     snd (CaptureFrame s e) = snd (AcquireNextFrame e) ++ [EvGetDesc]) /\
  (IsFormat32bit (desc_format e) = true ->
     In EvCreateStaging (snd (CaptureFrame s e)) /\
     (create_staging_ok e = true -> In EvCopyResource (snd (CaptureFrame s e)))).
Proof.
  unfold initialized. intros Hi Ha.
  split; [apply IsFormat32bit_spec|].
  unfold CaptureFrame.
  cbn [clear_metadata m_device m_deviceContext m_outputDuplication].
  destruct (m_device s), (m_deviceContext s), (m_outputDuplication s);
    try discriminate; cbn [negb orb].
  destruct (AcquireNextFrame e) as [[ok img] evs]; cbn in Ha; injection Ha as -> ->.
  cbn [negb orb].
  split; intros Hf; rewrite Hf; cbn [negb].
  - split; reflexivity.
  - destruct (create_staging_ok e); cbn [negb].
    + destruct (CopyStagingTextureToMemory _ e) as [[s2 ok] evs2]. cbn [snd].
      split; intros; rewrite !in_app_iff; cbn; tauto.
    + cbn [snd]. split; [rewrite !in_app_iff; cbn; tauto | discriminate].
Qed.

Lemma C8_witness :
  (initialized started = true /\
   fst (AcquireNextFrame (env_frame DXGI_FORMAT_R16G16B16A16_FLOAT)) = (true, true)) /\
  ((IsFormat32bit (desc_format (env_frame DXGI_FORMAT_R16G16B16A16_FLOAT)) = true <->
    In (desc_format (env_frame DXGI_FORMAT_R16G16B16A16_FLOAT)) bgra_formats) /\
   (IsFormat32bit (desc_format (env_frame DXGI_FORMAT_R16G16B16A16_FLOAT)) = false ->
     snd (fst (CaptureFrame started (env_frame DXGI_FORMAT_R16G16B16A16_FLOAT))) = false /\
     snd (CaptureFrame started (env_frame DXGI_FORMAT_R16G16B16A16_FLOAT)) =
       snd (AcquireNextFrame (env_frame DXGI_FORMAT_R16G16B16A16_FLOAT)) ++ [EvGetDesc]) /\
   (IsFormat32bit (desc_format (env_frame DXGI_FORMAT_R16G16B16A16_FLOAT)) = true ->
     In EvCreateStaging (snd (CaptureFrame started (env_frame DXGI_FORMAT_R16G16B16A16_FLOAT))) /\
     (create_staging_ok (env_frame DXGI_FORMAT_R16G16B16A16_FLOAT) = true ->
      In EvCopyResource (snd (CaptureFrame started (env_frame DXGI_FORMAT_R16G16B16A16_FLOAT)))))).
Proof.
  split; [split; vm_compute; reflexivity|].
  apply C8_format_gate; vm_compute; reflexivity.
Defined.

(** Whether [Shutdown] finds the handle released by [ev] held. *)
Definition held (s : ScreenCaptureDX11) (ev : event) : bool :=
  match ev with
  | EvReleaseStaging => m_stagingTexture s
  | EvReleaseDuplication => m_outputDuplication s
  | EvReleaseDevice => m_device s
  | EvReleaseDeviceContext => m_deviceContext s
  | _ => false
  end.

Definition all_held : ScreenCaptureDX11 := mk true true true true [Byte.x00] 2 1 32 8.

(** C9 fails: with every handle held, Shutdown releases the device before
    the device context, not after it. *)
Lemma C9_release_order_counterexample :
  snd (Shutdown all_held) <>
  [EvReleaseStaging; EvReleaseDuplication; EvReleaseDeviceContext; EvReleaseDevice].
Proof. vm_compute. discriminate. Qed.

(** C9 amended: Shutdown releases the staging texture, the duplication
    session, the device and then the device context, each only if held;
    it clears the frame buffer; a second Shutdown releases nothing and
    leaves the same state, and a Shutdown on a fresh object releases
    nothing and leaves it unchanged. *)
Theorem C9_shutdown_order_idempotent (s : ScreenCaptureDX11) :
  snd (Shutdown s) =
    filter (held s)
      [EvReleaseStaging; EvReleaseDuplication; EvReleaseDevice; EvReleaseDeviceContext] /\
  m_frameBuffer (fst (Shutdown s)) = [] /\
  Shutdown (fst (Shutdown s)) = (fst (Shutdown s), []) /\
  Shutdown init = (init, []).
Proof.
  unfold Shutdown. cbn.
  destruct (m_stagingTexture s), (m_outputDuplication s), (m_device s),
           (m_deviceContext s); repeat split.
Qed.

End DX11Claims.

(* ------------------------------------------------------------------ *)
(** ** Facade claims *)

Module FacadeClaims.
Import Facade.

(** Reachable facade states: with the mode Invalid no backend exists. *)
Definition wf (s : ScreenCapture) : Prop :=
  m_mode s = ScreenCaptureMode_Invalid -> m_capgdi s = None /\ m_capdx11 s = None.






Definition de_fail : DX11.startup_env := {|
  DX11.create_device_ok := fun _ => false; DX11.duplicate_output_ok := false |}.








(** C5 fails for the GDI backend: right after a successful Startup through
    the facade, before any CaptureFrame, the width is already 1920. *)
Lemma C5_gdi_metadata_before_capture_counterexample :
  snd (Startup init ScreenCaptureMode_GDI GDIClaims.env_ok de_fail) = true /\
  GetFrameWidth (fst (Startup init ScreenCaptureMode_GDI GDIClaims.env_ok de_fail)) = 1920 /\
  GetFrameDepth (fst (Startup init ScreenCaptureMode_GDI GDIClaims.env_ok de_fail)) = 32.
Proof. vm_compute. repeat split. Qed.

(** C5 amended: the DX11 backend reports zero width, height, depth and
    stride in every state reached, from a fresh object or from a Startup,
    by operations none of which was a successful CaptureFrame; the facade
    reports zeros with no backend selected and right after a DX11 Startup;
    the GDI backend instead reports its DIB metadata (screen width and
    height, depth 32, stride width*4) as soon as Startup succeeds. *)
Theorem C5_metadata_before_first_capture :
  (forall (d : DX11.ScreenCaptureDX11) (e : DX11.startup_env) (ops : list DX11.op),
     snd (DX11.run (fst (DX11.Startup d e)) ops) = false ->
     DX11Claims.metadata_zero (fst (DX11.run (fst (DX11.Startup d e)) ops))) /\
  (forall ops : list DX11.op,
     snd (DX11.run DX11.init ops) = false ->
     DX11Claims.metadata_zero (fst (DX11.run DX11.init ops))) /\
  (forall s : ScreenCapture, no_backend s ->
     GetFrameWidth s = 0 /\ GetFrameHeight s = 0 /\
     GetFrameDepth s = 0 /\ GetFrameStride s = 0) /\
  (forall (s : ScreenCapture) ge de, wf s ->
     let s' := fst (Startup s ScreenCaptureMode_DX11 ge de) in
     GetFrameWidth s' = 0 /\ GetFrameHeight s' = 0 /\
     GetFrameDepth s' = 0 /\ GetFrameStride s' = 0) /\
  (forall (g g' : GDI.ScreenCaptureGDI) (e : GDI.startup_env),
     GDI.Startup g e = (g', true) ->
     let w := if 1 <? GDI.cmonitors e then GDI.cx_virtual e else GDI.cx_screen e in
     let h := if 1 <? GDI.cmonitors e then GDI.cy_virtual e else GDI.cy_screen e in
     GDI.GetFrameWidth g' = w /\ GDI.GetFrameHeight g' = h /\
     GDI.GetFrameDepth g' = 32 /\ GDI.GetFrameStride g' = w * 4).
Proof.
  refine (conj _ (conj _ (conj _ (conj _ _)))).
  - intros d e ops. apply DX11Claims.run_no_capture_zero, DX11Claims.startup_zero.
  - intros ops. apply DX11Claims.run_no_capture_zero. repeat split.
  - intros s (_ & Hg & Hd). unfold GetFrameWidth, GetFrameHeight, GetFrameDepth,
      GetFrameStride, dispatch. rewrite Hg, Hd. repeat split.
  - intros s ge de Hwf. cbv zeta. unfold Startup.
    assert (H0 : m_capgdi (if negb (is_invalid (m_mode s)) then Shutdown s else s) = None).
    { destruct (m_mode s) eqn:Hm; cbn; auto. apply Hwf, Hm. }
    destruct (if negb (is_invalid (m_mode s)) then Shutdown s else s) as [m0 g0 d0].
    cbn in H0. subst g0.
    pose proof (DX11Claims.startup_zero DX11.init de) as Hz.
    destruct (DX11.Startup DX11.init de) as [d ok]. cbn in Hz |- *.
    unfold GetFrameWidth, GetFrameHeight, GetFrameDepth, GetFrameStride, dispatch.
    cbn. exact Hz.
  - intros g g' e. apply GDIClaims.gdi_startup_metadata.
Qed.

End FacadeClaims.

(* ------------------------------------------------------------------ *)
(** ** Unsigned arithmetic without wrap-around *)

Module U32Facts.

Lemma wrap_small (x : N) : (x < U32.modulus)%N -> U32.wrap x = x.
Proof. intros H. unfold U32.wrap. apply N.mod_small. exact H. Qed.

Lemma wrap_mul_nat (a b : nat) :
  (N.of_nat (a * b) < U32.modulus)%N ->
  N.to_nat (U32.wrap (N.of_nat a * N.of_nat b)) = a * b.
Proof.
  intros H. rewrite <- Nat2N.inj_mul, wrap_small by exact H. apply Nat2N.id.
Qed.

Lemma wrap_mul_div_nat (a b c : nat) :
  (N.of_nat (a * b) < U32.modulus)%N ->
  N.to_nat (U32.wrap (N.of_nat a * N.of_nat b) / N.of_nat c) = a * b / c.
Proof.
  intros H. rewrite <- Nat2N.inj_mul, wrap_small by exact H.
  rewrite <- Nat2N.inj_div. apply Nat2N.id.
Qed.

End U32Facts.

(* ------------------------------------------------------------------ *)
(** ** Further properties of the GDI backend *)

Module GDIExtras.
Import GDI GDIFlip.

(** A 3x2 screen on which every GDI call succeeds. *)
Definition env_3x2 : startup_env := {|
  cx_screen := 3; cy_screen := 2; cmonitors := 1; cx_virtual := 3; cy_virtual := 2;
  create_dc := Some 1; dib_section := Some 2; dib_bits := Some 4096;
  dib_contents := fun _ => Byte.x00; select_old := Some 3 |}.

(** Reversing the scanlines twice gives every byte of every row back. *)
Lemma flip_scanlines_twice (h st : nat) (mem : memory) (i j : nat) :
  i < h -> j < st ->
  flip_scanlines h st (flip_scanlines h st mem) (i * st + j) = mem (i * st + j).
Proof.
  intros Hi Hj.
  rewrite flip_scanlines_row by assumption.
  rewrite flip_scanlines_row by (lia || assumption).
  replace (h - 1 - (h - 1 - i)) with i by lia. reflexivity.
Qed.

(** The swap loop writes only inside the first [h * st] bytes. *)
Lemma flip_loop_outside (fuel : nat) : forall y h st mem tmp a,
  h * st <= a ->
  flip_loop fuel y h st (y * st) ((h - 1 - y) * st) mem tmp a = mem a.
Proof.
  induction fuel as [|f IH]; intros y h st mem tmp a Ha; [reflexivity|].
  cbn [flip_loop]. destruct (Nat.ltb_spec y (h / 2)) as [Hlt|Hge]; [|reflexivity].
  assert (Hh : 2 * (h / 2) <= h) by (apply Nat.Div0.mul_div_le).
  destruct (swap_body st (y * st) ((h - 1 - y) * st) mem tmp) as [mem' tmp'] eqn:Hsw.
  cbv beta iota.
  replace (y * st + st) with (S y * st) by (simpl; lia).
  replace ((h - 1 - y) * st - st) with ((h - 1 - S y) * st)
    by (rewrite !Nat.mul_sub_distr_r; simpl; lia).
  rewrite IH by exact Ha.
  unfold swap_body, memcpy in Hsw. injection Hsw as <- _.
  assert (H1 : S y * st <= h * st) by (apply Nat.mul_le_mono_r; lia).
  assert (H2 : S (h - 1 - y) * st <= h * st) by (apply Nat.mul_le_mono_r; lia).
  cbn [Nat.mul] in H1, H2.
  replace ((h - 1 - y) * st <=? a) with true by (symmetry; apply Nat.leb_le; lia).
  replace (a <? (h - 1 - y) * st + st) with false by (symmetry; apply Nat.ltb_ge; lia).
  replace (a <? y * st + st) with false by (symmetry; apply Nat.ltb_ge; lia).
  rewrite !andb_false_r. reflexivity.
Qed.

Lemma flip_scanlines_outside (h st : nat) (mem : memory) (a : nat) :
  h * st <= a -> flip_scanlines h st mem a = mem a.
Proof.
  intros Ha. unfold flip_scanlines.
  replace ((h - 1) * st) with ((h - 1 - 0) * st) by (f_equal; lia).
  replace 0 with (0 * st) at 2 by reflexivity.
  apply flip_loop_outside. exact Ha.
Qed.

(** A capture whose BitBlt fails still returns true and reverses the rows
    of the DIB once more: right after a good capture, it brings back the
    frame in the bottom-up order BitBlt wrote it, row [i] of the buffer
    being screen line [height-1-i]. *)
Theorem gdi_failed_blit_unflips_previous_frame (s : ScreenCaptureGDI) (b1 b2 : memory) :
  m_hdcMem s <> None -> m_width s <> 0 ->
  let '(s1, ok1) := CaptureFrame s true b1 in
  let '(s2, ok2) := CaptureFrame s1 false b2 in
  ok1 = true /\ ok2 = true /\
  forall i j, i < m_height s -> j < m_stride s ->
    pixels s2 (i * m_stride s + j) = b1 (i * m_stride s + j) /\
    pixels s1 (i * m_stride s + j) = b1 ((m_height s - 1 - i) * m_stride s + j).
Proof.
  intros Hdc Hw. unfold CaptureFrame.
  destruct (m_hdcMem s) as [dc|]; [|congruence].
  assert (Hw' : (m_width s =? 0) = false) by (apply Nat.eqb_neq; exact Hw).
  rewrite Hw'. cbn. rewrite Hw'. cbn.
  refine (conj eq_refl (conj eq_refl _)). intros i j Hi Hj. split.
  - apply flip_scanlines_twice; assumption.
  - apply flip_scanlines_row; assumption.
Qed.

Lemma gdi_failed_blit_unflips_previous_frame_witness :
  (m_hdcMem GDIClaims.started_1x2 <> None /\ m_width GDIClaims.started_1x2 <> 0) /\
  (let '(s1, ok1) := CaptureFrame GDIClaims.started_1x2 true GDIClaims.sample_blit in
   let '(s2, ok2) := CaptureFrame s1 false (fun _ => Byte.x00) in
   ok1 = true /\ ok2 = true /\
   forall i j, i < m_height GDIClaims.started_1x2 -> j < m_stride GDIClaims.started_1x2 ->
     pixels s2 (i * m_stride GDIClaims.started_1x2 + j) =
       GDIClaims.sample_blit (i * m_stride GDIClaims.started_1x2 + j) /\
     pixels s1 (i * m_stride GDIClaims.started_1x2 + j) =
       GDIClaims.sample_blit ((m_height GDIClaims.started_1x2 - 1 - i) *
                              m_stride GDIClaims.started_1x2 + j)).
Proof.
  split; [split; cbn; discriminate|].
  apply gdi_failed_blit_unflips_previous_frame; cbn; discriminate.
Defined.


(** What a [Startup] returns: true exactly when CreateCompatibleDC,
    CreateDIBSection and its pixel pointer are all non-null, whatever the
    state before; a successful Startup leaves the same object as on a
    freshly constructed one, and its captures succeed exactly when the
    screen width read from GetSystemMetrics is non-zero; a failed one
    leaves no memory DC, so its captures fail. *)
Theorem gdi_startup_outcome (s : ScreenCaptureGDI) (e : startup_env) :
  let '(g, ok) := Startup s e in
  (ok = true <-> create_dc e <> None /\ dib_section e <> None /\ dib_bits e <> None) /\
  (ok = true ->
     Startup s e = Startup init e /\
     forall b m, snd (CaptureFrame g b m) =
       negb ((if 1 <? cmonitors e then cx_virtual e else cx_screen e) =? 0)) /\
  (ok = false -> m_hdcMem g = None /\ forall b m, CaptureFrame g b m = (g, false)).
Proof.
  unfold Startup.
  destruct (create_dc e) as [dc|].
  - destruct (dib_section e) as [ds|], (dib_bits e) as [db|]; cbn.
    + split; [split; [intros _; repeat split; discriminate | reflexivity]|].
      split; [intros _; split; [reflexivity|] | discriminate].
      intros b m. unfold CaptureFrame. cbn. destruct (_ =? 0); reflexivity.
    + split; [split; [discriminate | intros (_ & _ & H); congruence]|].
      split; [discriminate|]. intros _. split; [reflexivity|].
      intros b m. reflexivity.
    + split; [split; [discriminate | intros (_ & H & _); congruence]|].
      split; [discriminate|]. intros _. split; [reflexivity|].
      intros b m. reflexivity.
    + split; [split; [discriminate | intros (_ & H & _); congruence]|].
      split; [discriminate|]. intros _. split; [reflexivity|].
      intros b m. reflexivity.
  - cbn. split; [split; [discriminate | intros (H & _); congruence]|].
    split; [discriminate|]. intros _. split; [reflexivity|].
    intros b m. reflexivity.
Qed.

(** After a successful Startup on a screen of [w * 4 * h] bytes within the
    32-bit range, the stride is [4*w], the scanline and pixel pointers of
    row [y < h] and column [x < w] are [m_dibBits + 4*w*y] and
    [m_dibBits + 4*w*y + 4*x], and the pixel's four bytes lie inside the
    [stride * height] bytes of the DIB. *)
Theorem gdi_pixel_ptr_in_frame (s g : ScreenCaptureGDI) (e : startup_env) (y x : nat) :
  Startup s e = (g, true) ->
  y < m_height g -> x < m_width g ->
  (N.of_nat (m_width g * 4 * m_height g) <= U32.modulus)%N ->
  (N.of_nat (m_width g * 32) <= U32.modulus)%N ->
  exists b, m_dibBits g = Some b /\ m_stride g = 4 * m_width g /\
    GDIBuffer.GetFrameBufferScanlinePtr g y = Some (b + 4 * m_width g * y) /\
    GDIBuffer.GetFrameBufferPixelPtr g y x = Some (b + 4 * m_width g * y + 4 * x) /\
    b + 4 * m_width g * y + 4 * x + 4 <= b + m_stride g * m_height g.
Proof.
  intros Hs Hy Hx Hwh Hw.
  pose proof (GDIClaims.gdi_startup_metadata s g e Hs) as Hm. cbv zeta in Hm.
  unfold GetFrameWidth, GetFrameHeight, GetFrameDepth, GetFrameStride in Hm.
  destruct Hm as (Hwd & Hht & Hdep & Hst).
  assert (Hb : exists b, m_dibBits g = Some b).
  { unfold Startup in Hs. destruct (create_dc e); [|discriminate].
    destruct (dib_section e), (dib_bits e) as [db|]; try discriminate.
    injection Hs as <-. exists db. reflexivity. }
  destruct Hb as [b Hb]. exists b.
  unfold GDIBuffer.GetFrameBufferScanlinePtr, GDIBuffer.GetFrameBufferPixelPtr.
  rewrite Hb, Hdep.
  assert (Hsy : m_width g * 4 * y < m_width g * 4 * m_height g)
    by (apply Nat.mul_lt_mono_pos_l; lia).
  assert (Hx32 : x * 32 < m_width g * 32) by lia.
  rewrite (U32Facts.wrap_mul_nat (m_stride g) y) by (rewrite Hst; lia).
  change 8%N with (N.of_nat 8).
  rewrite (U32Facts.wrap_mul_div_nat x 32 8) by lia.
  rewrite Hst, <- Hwd.
  replace (x * 32 / 8) with (x * 4)
    by (replace (x * 32) with (x * 4 * 8) by lia; rewrite Nat.div_mul; lia).
  split; [reflexivity|]. split; [lia|].
  split; [f_equal; lia|]. split; [f_equal; lia|].
  assert (m_width g * 4 * y + m_width g * 4 <= m_width g * 4 * m_height g)
    by (replace (m_width g * 4 * y + m_width g * 4) with (m_width g * 4 * S y) by lia;
        apply Nat.mul_le_mono_l; lia).
  lia.
Qed.

Lemma gdi_pixel_ptr_in_frame_witness :
  (Startup init env_3x2 = (fst (Startup init env_3x2), true) /\
   1 < m_height (fst (Startup init env_3x2)) /\
   2 < m_width (fst (Startup init env_3x2)) /\
   (N.of_nat (m_width (fst (Startup init env_3x2)) * 4 *
              m_height (fst (Startup init env_3x2))) <= U32.modulus)%N /\
   (N.of_nat (m_width (fst (Startup init env_3x2)) * 32) <= U32.modulus)%N) /\
  exists b, m_dibBits (fst (Startup init env_3x2)) = Some b /\
    m_stride (fst (Startup init env_3x2)) = 4 * m_width (fst (Startup init env_3x2)) /\
    GDIBuffer.GetFrameBufferScanlinePtr (fst (Startup init env_3x2)) 1 =
      Some (b + 4 * m_width (fst (Startup init env_3x2)) * 1) /\
    GDIBuffer.GetFrameBufferPixelPtr (fst (Startup init env_3x2)) 1 2 =
      Some (b + 4 * m_width (fst (Startup init env_3x2)) * 1 + 4 * 2) /\
    b + 4 * m_width (fst (Startup init env_3x2)) * 1 + 4 * 2 + 4 <=
      b + m_stride (fst (Startup init env_3x2)) * m_height (fst (Startup init env_3x2)).
Proof.
  split.
  - vm_compute. repeat split; try reflexivity; try lia; intros H; discriminate H.
  - apply (gdi_pixel_ptr_in_frame init (fst (Startup init env_3x2)) env_3x2 1 2);
      vm_compute; try reflexivity; try lia; intros H; discriminate H.
Defined.

End GDIExtras.

(* ------------------------------------------------------------------ *)
(** ** Further properties of the DX11 backend *)

Module DX11Extras.
Import DX11 DX11Claims.

Lemma try_drivers_existsb (e : startup_env) (ds : list driver_type) :
  try_drivers e ds = existsb (create_device_ok e) ds.
Proof. induction ds as [|d ds IH]; cbn; [reflexivity|]. rewrite IH. reflexivity. Qed.

(** The state and result of a capture that went through every step. *)
Lemma capture_success (s : ScreenCaptureDX11) (e : capture_env) :
  let '(s', ok, _) := CaptureFrame s e in
  (ok = true <->
     initialized s = true /\ fst (AcquireNextFrame e) = (true, true) /\
     IsFormat32bit (desc_format e) = true /\ create_staging_ok e = true /\
     map_ok e = true) /\
  (ok = true ->
     s' = {| m_device := m_device s; m_deviceContext := m_deviceContext s;
             m_stagingTexture := false; m_outputDuplication := m_outputDuplication s;
             m_frameBuffer := map (mapped_data e) (seq 0 (row_pitch e * desc_height e));
             m_frameWidth := desc_width e; m_frameHeight := desc_height e;
             m_frameDepth := 32; m_frameStride := row_pitch e |}).
Proof.
  unfold CaptureFrame, CopyStagingTextureToMemory, initialized.
  destruct (AcquireNextFrame e) as [[ok img] evs].
  cbn [clear_metadata set_staging m_device m_deviceContext m_outputDuplication fst].
  destruct (m_device s), (m_deviceContext s), (m_outputDuplication s), ok, img,
           (IsFormat32bit (desc_format e)), (create_staging_ok e), (map_ok e);
    cbn; intuition (try discriminate; try reflexivity).
Qed.

(** A DX11 capture returns true exactly when the session is initialized,
    AcquireNextFrame delivered a texture, the format is one of the six
    32-bit BGRA/BGRX ones, the staging texture was created and could be
    mapped; it then reports the duplication's width and height, depth 32
    and the mapped row pitch as stride, and the buffer holds the first
    [RowPitch * Height] bytes of the mapped texture. *)
Theorem dx11_capture_success (s : ScreenCaptureDX11) (e : capture_env) :
  let '(s', ok, _) := CaptureFrame s e in
  (ok = true <->
     initialized s = true /\ fst (AcquireNextFrame e) = (true, true) /\
     IsFormat32bit (desc_format e) = true /\ create_staging_ok e = true /\
     map_ok e = true) /\
  (ok = true ->
     GetFrameWidth s' = desc_width e /\ GetFrameHeight s' = desc_height e /\
     GetFrameDepth s' = 32 /\ GetFrameStride s' = row_pitch e /\
     m_frameBuffer s' = map (mapped_data e) (seq 0 (row_pitch e * desc_height e))).
Proof.
  pose proof (capture_success s e) as H.
  destruct (CaptureFrame s e) as [[s' ok] evs]. destruct H as [Hiff Hs].
  split; [exact Hiff|]. intros Hok. rewrite (Hs Hok). cbn. repeat split.
Qed.

Lemma acquire_loop_no_copy (n attempt : nat) (env : capture_env) (hr res : bool) :
  ~ In EvCopyResource (snd (acquire_loop n attempt env hr res)).
Proof.
  revert attempt hr res. induction n as [|n IH]; intros attempt hr res; cbn; [tauto|].
  destruct (hr_ok (acquire env attempt) && (last_present_time (acquire env attempt) =? 0)%Z).
  - specialize (IH (S attempt) (hr_ok (acquire env attempt)) false).
    destruct (acquire_loop n (S attempt) env _ false) as [[? ?] evs]. cbn in *.
    intuition discriminate.
  - destruct (hr_ok (acquire env attempt) && negb (resource (acquire env attempt))).
    + specialize (IH (S attempt) (hr_ok (acquire env attempt)) (resource (acquire env attempt))).
      destruct (acquire_loop n (S attempt) env _ _) as [[? ?] evs]. cbn in *.
      intuition discriminate.
    + cbn. intuition discriminate.
Qed.

Lemma acquire_no_copy (env : capture_env) :
  ~ In EvCopyResource (snd (AcquireNextFrame env)).
Proof.
  unfold AcquireNextFrame. pose proof (acquire_loop_no_copy 4 0 env false false) as H.
  destruct (acquire_loop 4 0 env false false) as [[hr res] evs]. cbn in H.
  destruct (negb hr || negb res); [exact H|].
  destruct (query_texture_ok env); cbn; rewrite in_app_iff; cbn; intuition discriminate.
Qed.

(** A capture never changes the device, the device context or the
    duplication session, and never keeps a staging texture: when none was
    held before none is held after, and whenever the GPU copy was issued
    the staging texture and the acquired frame are both released. *)
Theorem dx11_capture_handles (s : ScreenCaptureDX11) (e : capture_env) :
  let '(s', ok, evs) := CaptureFrame s e in
  m_device s' = m_device s /\ m_deviceContext s' = m_deviceContext s /\
  m_outputDuplication s' = m_outputDuplication s /\
  (m_stagingTexture s = false -> m_stagingTexture s' = false) /\
  (In EvCopyResource evs -> In EvReleaseStaging evs /\ In EvReleaseFrame evs).
Proof.
  unfold CaptureFrame, CopyStagingTextureToMemory.
  pose proof (acquire_no_copy e) as Hn.
  destruct (AcquireNextFrame e) as [[ok img] evs1]. cbn [snd] in Hn.
  cbn [clear_metadata set_staging m_device m_deviceContext m_outputDuplication
       m_stagingTexture].
  destruct (m_device s) eqn:Hd, (m_deviceContext s) eqn:Hc, (m_outputDuplication s) eqn:Ho,
           ok, img, (IsFormat32bit (desc_format e)), (create_staging_ok e), (map_ok e);
    cbn; rewrite ?in_app_iff; cbn;
    intuition (try discriminate; try reflexivity; try congruence).
Qed.

Lemma nat_N_lt (a b : nat) : a < b -> (N.of_nat a < N.of_nat b)%N.
Proof. lia. Qed.

(** Startup succeeds exactly when one of the hardware, WARP and reference
    drivers yields a device and the output duplication is started; the
    device and its context are then held exactly when some driver worked,
    and the frame buffer and its metadata are always cleared. *)
Theorem dx11_startup_outcome (s : ScreenCaptureDX11) (e : startup_env) :
  let '(s', ok) := Startup s e in
  (ok = true <->
     (exists d, In d drivers /\ create_device_ok e d = true) /\
     duplicate_output_ok e = true) /\
  m_device s' = existsb (create_device_ok e) drivers /\
  m_deviceContext s' = m_device s' /\
  (ok = true -> initialized s' = true) /\
  m_frameBuffer s' = [] /\
  GetFrameWidth s' = 0 /\ GetFrameHeight s' = 0 /\
  GetFrameDepth s' = 0 /\ GetFrameStride s' = 0.
Proof.
  unfold Startup, initialized. rewrite try_drivers_existsb.
  destruct (existsb (create_device_ok e) drivers) eqn:Hx; cbn.
  - apply existsb_exists in Hx.
    destruct (duplicate_output_ok e); cbn; intuition (try discriminate; try reflexivity).
  - assert (Hn : ~ exists d, In d drivers /\ create_device_ok e d = true).
    { intros Hd. apply existsb_exists in Hd. rewrite Hx in Hd. discriminate. }
    intuition (try discriminate; try reflexivity).
Qed.

(** After Shutdown the object is as good as new: a capture fails at once
    without any call, and Startup behaves exactly as on a fresh object,
    whatever frame metadata Shutdown left behind. *)
Theorem dx11_restart_after_shutdown (s : ScreenCaptureDX11)
    (ce : capture_env) (se : startup_env) :
  CaptureFrame (fst (Shutdown s)) ce = (clear_metadata (fst (Shutdown s)), false, []) /\
  Startup (fst (Shutdown s)) se = Startup init se.
Proof. split; reflexivity. Qed.

(** A failed capture reports a zero-sized frame but does not clear the
    frame buffer: GetFrameBuffer still returns the bytes of the last
    successful capture. *)
Theorem dx11_failed_capture_keeps_buffer (s : ScreenCaptureDX11) (e : capture_env) :
  let '(s', ok, _) := CaptureFrame s e in
  ok = false -> m_frameBuffer s' = m_frameBuffer s /\ metadata_zero s'.
Proof.
  pose proof (capture_fail_zero s e) as Hz.
  unfold CaptureFrame, CopyStagingTextureToMemory in *.
  destruct (AcquireNextFrame e) as [[ok img] evs1].
  cbn [clear_metadata set_staging m_device m_deviceContext m_outputDuplication
       m_frameBuffer] in *.
  destruct (m_device s), (m_deviceContext s), (m_outputDuplication s), ok, img,
           (IsFormat32bit (desc_format e)), (create_staging_ok e), (map_ok e);
    cbn in *; intros Hf; try discriminate; split; try reflexivity; apply Hz; reflexivity.
Qed.

(** After a successful capture, with the row pitch covering the 4-byte
    pixels of a row and the frame addressable in 32 bits, the scanline and
    pixel offsets are [stride * y] and [stride * y + 4 * x], and the four
    bytes of the pixel lie inside the frame buffer. *)
Theorem dx11_pixel_ptr_in_buffer (s s' : ScreenCaptureDX11) (e : capture_env)
    (evs : list event) (y x : nat)
    (Hc : CaptureFrame s e = (s', true, evs))
    (Hy : y < GetFrameHeight s') (Hx : x < GetFrameWidth s')
    (Hpitch : 4 * GetFrameWidth s' <= GetFrameStride s')
    (Hfit : (N.of_nat (GetFrameStride s' * GetFrameHeight s') <= U32.modulus)%N)
    (Hfitw : (N.of_nat (GetFrameWidth s' * 32) <= U32.modulus)%N) :
  DX11Buffer.GetFrameBufferScanlinePtr s' y = GetFrameStride s' * y /\
  DX11Buffer.GetFrameBufferPixelPtr s' y x = GetFrameStride s' * y + 4 * x /\
  DX11Buffer.GetFrameBufferPixelPtr s' y x + 4 <= length (m_frameBuffer s').
Proof.
  pose proof (capture_success s e) as H. rewrite Hc in H.
  destruct H as [_ Hs]. specialize (Hs eq_refl).
  assert (Hbuf : length (m_frameBuffer s') = GetFrameStride s' * GetFrameHeight s').
  { rewrite Hs. cbn. rewrite length_map, length_seq. reflexivity. }
  assert (Hd : m_frameDepth s' = 32) by (rewrite Hs; reflexivity).
  unfold DX11Buffer.GetFrameBufferPixelPtr, DX11Buffer.GetFrameBufferScanlinePtr.
  unfold GetFrameStride, GetFrameHeight, GetFrameWidth in *.
  rewrite Hd, Hbuf.
  assert (Hsl : N.to_nat (U32.wrap (N.of_nat (m_frameStride s') * N.of_nat y)) =
                m_frameStride s' * y).
  { apply U32Facts.wrap_mul_nat.
    apply N.lt_le_trans with (2 := Hfit). apply nat_N_lt. nia. }
  assert (Hpx : N.to_nat (U32.wrap (N.of_nat x * N.of_nat 32) / N.of_nat 8) = x * 32 / 8).
  { apply U32Facts.wrap_mul_div_nat.
    apply N.lt_le_trans with (2 := Hfitw). apply nat_N_lt. nia. }
  change 8%N with (N.of_nat 8) in *. change 32%N with (N.of_nat 32).
  rewrite Hsl, Hpx.
  replace (x * 32 / 8) with (4 * x)
    by (apply Nat.div_unique with 0; lia).
  refine (conj eq_refl (conj eq_refl _)). nia.
Qed.

Lemma dx11_pixel_ptr_in_buffer_witness :
  DX11Buffer.GetFrameBufferScanlinePtr
    (fst (fst (CaptureFrame started (env_frame DXGI_FORMAT_B8G8R8A8_UNORM)))) 0 = 0 /\
  DX11Buffer.GetFrameBufferPixelPtr
    (fst (fst (CaptureFrame started (env_frame DXGI_FORMAT_B8G8R8A8_UNORM)))) 0 1 =
    8 * 0 + 4 * 1 /\
  DX11Buffer.GetFrameBufferPixelPtr
    (fst (fst (CaptureFrame started (env_frame DXGI_FORMAT_B8G8R8A8_UNORM)))) 0 1 + 4
    <= length (m_frameBuffer
         (fst (fst (CaptureFrame started (env_frame DXGI_FORMAT_B8G8R8A8_UNORM))))).
Proof.
  apply (dx11_pixel_ptr_in_buffer started
           (fst (fst (CaptureFrame started (env_frame DXGI_FORMAT_B8G8R8A8_UNORM))))
           (env_frame DXGI_FORMAT_B8G8R8A8_UNORM)
           (snd (CaptureFrame started (env_frame DXGI_FORMAT_B8G8R8A8_UNORM))) 0 1);
    vm_compute; try reflexivity; try lia; intros H; discriminate H.
Defined.

End DX11Extras.

(* ------------------------------------------------------------------ *)
(** ** Further properties of the facade *)

Module FacadeExtras.
Import Facade.

(** Exactly the backend of the current mode exists, and none in mode
    Invalid. *)
Definition consistent (s : ScreenCapture) : Prop :=
  match m_mode s with
  | ScreenCaptureMode_Invalid => m_capgdi s = None /\ m_capdx11 s = None
  | ScreenCaptureMode_GDI => m_capgdi s <> None /\ m_capdx11 s = None
  | ScreenCaptureMode_DX11 => m_capgdi s = None /\ m_capdx11 s <> None
  end.

Lemma consistent_reset (s : ScreenCapture) :
  consistent s ->
  m_capgdi (if negb (is_invalid (m_mode s)) then Shutdown s else s) = None /\
  m_capdx11 (if negb (is_invalid (m_mode s)) then Shutdown s else s) = None.
Proof. unfold consistent. destruct (m_mode s); cbn; tauto. Qed.

Lemma consistent_step (s : ScreenCapture) (o : FacadeRun.op) :
  consistent s -> consistent (FacadeRun.step s o).
Proof.
  intros Hc. destruct o as [mode ge de|e|]; cbn [FacadeRun.step].
  - unfold Startup. destruct (consistent_reset s Hc) as [Hg Hd].
    destruct (if negb (is_invalid (m_mode s)) then Shutdown s else s) as [m0 g0 d0].
    cbn in Hg, Hd. subst g0 d0. destruct mode.
    + cbn. split; reflexivity.
    + destruct (GDI.Startup GDI.init ge). cbn. split; [discriminate | reflexivity].
    + destruct (DX11.Startup DX11.init de). cbn. split; [reflexivity | discriminate].
  - unfold CaptureFrame, consistent in *.
    destruct s as [m g d]. cbn in *. destruct g as [g|].
    + destruct (GDI.CaptureFrame g (blit_ok e) (blitted e)). cbn.
      destruct m; cbn in *; intuition discriminate.
    + destruct d as [d|]; [|exact Hc].
      destruct (DX11.CaptureFrame d (dx_env e)) as [[d' ok] evs]. cbn.
      destruct m; cbn in *; intuition discriminate.
  - cbn. split; reflexivity.
Qed.

(** Whatever sequence of Startup, CaptureFrame and Shutdown calls a
    caller makes on a new ScreenCapture, at most one backend object
    exists at any time, and it is the one of the mode GetCaptureMode
    reports: none in mode Invalid. *)
Theorem facade_backend_matches_mode (ops : list FacadeRun.op) :
  consistent (FacadeRun.run init ops).
Proof.
  unfold FacadeRun.run.
  assert (H : forall s, consistent s -> consistent (fold_left FacadeRun.step ops s)).
  { induction ops as [|o ops IH]; intros s Hs; [exact Hs|].
    cbn. apply IH, consistent_step, Hs. }
  apply H. split; reflexivity.
Qed.

(** In any such state, Startup throws away the current session entirely:
    its result (state and return value) is the one of a Startup on a new
    ScreenCapture, whichever backend was running before. *)
Theorem facade_startup_discards_session (s : ScreenCapture)
    (mode : ScreenCaptureMode) (ge : GDI.startup_env) (de : DX11.startup_env) :
  consistent s -> Startup s mode ge de = Startup init mode ge de.
Proof.
  intros Hc. unfold Startup. destruct (consistent_reset s Hc) as [Hg Hd].
  destruct (if negb (is_invalid (m_mode s)) then Shutdown s else s) as [m0 g0 d0].
  cbn in Hg, Hd. subst g0 d0. reflexivity.
Qed.

Lemma facade_startup_discards_session_witness :
  consistent (fst (Startup init ScreenCaptureMode_GDI GDIClaims.env_ok
                     FacadeClaims.de_fail)) /\
  Startup (fst (Startup init ScreenCaptureMode_GDI GDIClaims.env_ok FacadeClaims.de_fail))
          ScreenCaptureMode_DX11 GDIClaims.env_ok FacadeClaims.de_fail =
  Startup init ScreenCaptureMode_DX11 GDIClaims.env_ok FacadeClaims.de_fail.
Proof.
  split.
  - vm_compute. split; [intros H; discriminate H | reflexivity].
  - apply facade_startup_discards_session.
    vm_compute. split; [intros H; discriminate H | reflexivity].
Defined.

End FacadeExtras.

(* ------------------------------------------------------------------ *)
(** ** Properties of VideoFileEncoder *)

Module EncoderExtras.
Import Encoder.

Lemma dims_ok_iff (w h fps : N) :
  ((w <? 1) || (h <? 1) || (fps <? 1))%N = false <-> (1 <= w /\ 1 <= h /\ 1 <= fps)%N.
Proof.
  destruct (N.ltb_spec w 1), (N.ltb_spec h 1), (N.ltb_spec fps 1); cbn;
    split; intros; try discriminate; try reflexivity; lia.
Qed.

Lemma start_facts (s : VideoFileEncoder) (fin : bool) (se : sink_env)
    (w h fps : N) :
  let '(s', ok) := Start s fin se w h fps in
  (ok = true <-> (1 <= w /\ 1 <= h /\ 1 <= fps)%N /\ sink_hr_ok se = true) /\
  (ok = false -> m_pSinkWriter s' = None) /\
  (ok = true -> m_pSinkWriter s' = Some (sink_writer se) /\ m_stream s' = sink_stream se) /\
  ((1 <= w /\ 1 <= h /\ 1 <= fps)%N ->
     GetWidth s' = w /\ GetHeight s' = h /\ GetFrameDuration s' = (10000000 / fps)%N /\
     GetBitRate s' = bit_rate w h /\ m_pixels_size s' = frame_bytes w h).
Proof.
  unfold Start, SetFrameFormat, InitializeSinkWriter.
  assert (H1 : m_pSinkWriter (match m_pSinkWriter s with
                              | Some _ => fst (Stop s fin) | None => s end) = None).
  { unfold Stop. destruct (m_pSinkWriter s) eqn:Hw; cbn; [reflexivity | exact Hw]. }
  destruct (match m_pSinkWriter s with Some _ => fst (Stop s fin) | None => s end) as
    [w0 h0 f0 d0 b0 e0 i0 ps0 p0 wr0 st0 mf0 co0].
  cbn in H1. subst wr0.
  destruct ((w <? 1) || (h <? 1) || (fps <? 1))%N eqn:Hc.
  - cbn. assert (Hn : ~ (1 <= w /\ 1 <= h /\ 1 <= fps)%N).
    { intros Hd. apply dims_ok_iff in Hd. rewrite Hc in Hd. discriminate. }
    intuition discriminate.
  - apply dims_ok_iff in Hc.
    destruct (sink_hr_ok se); cbn; intuition (try discriminate; try reflexivity).
Qed.

(** Start returns true exactly when width, height and frame rate are all
    at least 1 and the sink writer could be created; a Start that returns
    false leaves no sink writer open (one that was open has been
    stopped), and with valid dimensions the frame format (size, frame
    duration [10^7 / fps] in 100 ns units, bit rate, pixel buffer size) is
    set even when the sink writer could not be created. *)
Theorem encoder_start_outcome (s : VideoFileEncoder) (fin : bool) (se : sink_env)
    (w h fps : N) :
  let '(s', ok) := Start s fin se w h fps in
  (ok = true <-> (1 <= w /\ 1 <= h /\ 1 <= fps)%N /\ sink_hr_ok se = true) /\
  (ok = false -> m_pSinkWriter s' = None) /\
  (ok = true -> m_pSinkWriter s' = Some (sink_writer se) /\ m_stream s' = sink_stream se) /\
  ((1 <= w /\ 1 <= h /\ 1 <= fps)%N ->
     GetWidth s' = w /\ GetHeight s' = h /\ GetFrameDuration s' = (10000000 / fps)%N /\
     GetBitRate s' = bit_rate w h /\ m_pixels_size s' = frame_bytes w h).
Proof. exact (start_facts s fin se w h fps). Qed.

(** Stop returns false and changes nothing when no sink writer is open;
    otherwise it closes the writer and returns the result of Finalize.
    Either way no writer is open afterwards, so a second Stop returns
    false. *)
Theorem encoder_stop_closes (s : VideoFileEncoder) (fin fin' : bool) :
  let '(s', ok) := Stop s fin in
  m_pSinkWriter s' = None /\
  (m_pSinkWriter s = None -> s' = s /\ ok = false) /\
  (m_pSinkWriter s <> None -> ok = fin) /\
  Stop s' fin' = (s', false).
Proof.
  unfold Stop. destruct (m_pSinkWriter s) eqn:Hw; cbn;
    rewrite ?Hw; intuition (try discriminate; try reflexivity; try congruence).
Qed.

Lemma step_flags (s : VideoFileEncoder) (o : op) :
  m_doMFStartup (step s o) = m_doMFStartup s /\
  m_doCoInitialize (step s o) = m_doCoInitialize s.
Proof.
  destruct o as [fmt|fin se w h fps|fin|px fl ts fe]; cbn [step].
  - split; reflexivity.
  - unfold Start, SetFrameFormat, InitializeSinkWriter, Stop.
    destruct (m_pSinkWriter s); cbn;
      destruct (_ || _ || _)%N; cbn; [split; reflexivity| |split; reflexivity|];
      destruct (sink_hr_ok se); split; reflexivity.
  - unfold Stop. destruct (m_pSinkWriter s); split; reflexivity.
  - unfold AddFrame. destruct px as [src|]; [|split; reflexivity].
    destruct (m_pixels_size s =? 0); [split; reflexivity|].
    destruct (WriteFrame _ _ _ _). split; reflexivity.
Qed.

Lemma run_flags (ops : list op) : forall s,
  m_doMFStartup (run s ops) = m_doMFStartup s /\
  m_doCoInitialize (run s ops) = m_doCoInitialize s.
Proof.
  unfold run. induction ops as [|o ops IH]; intros s; [split; reflexivity|].
  cbn. destruct (IH (step s o)) as [H1 H2]. destruct (step_flags s o) as [H3 H4].
  split; congruence.
Qed.

(** The constructor always calls CoInitializeEx and MFStartup, whatever
    its flags; after any sequence of public calls the destructor calls
    MFShutdown only when [doMFStartup] was set and CoUninitialize only
    when [doCoInitialize] was set, and finalizes the sink writer exactly
    when one is still open. *)
Theorem encoder_lifecycle_calls (doMF doCo : bool) (ops : list op) :
  snd (construct doMF doCo) = [CallCoInitializeEx; CallMFStartup] /\
  (In CallMFShutdown (destroy (run (fst (construct doMF doCo)) ops)) <-> doMF = true) /\
  (In CallCoUninitialize (destroy (run (fst (construct doMF doCo)) ops)) <-> doCo = true) /\
  (In CallFinalize (destroy (run (fst (construct doMF doCo)) ops)) <->
     m_pSinkWriter (run (fst (construct doMF doCo)) ops) <> None).
Proof.
  destruct (run_flags ops (fst (construct doMF doCo))) as [H1 H2].
  split; [reflexivity|].
  remember (run (fst (construct doMF doCo)) ops) as r eqn:Hr. clear Hr.
  cbn in H1, H2. unfold destroy. rewrite H1, H2.
  destruct (m_pSinkWriter r), doMF, doCo; cbn;
    intuition (try discriminate; try congruence).
Qed.

Lemma frame_bytes_fit (w h : N) :
  (w * h * 4 < U32.modulus)%N -> frame_bytes w h = N.to_nat w * N.to_nat h * 4.
Proof.
  intros Hf. unfold frame_bytes. rewrite U32Facts.wrap_small by lia.
  rewrite !N2Nat.inj_mul. reflexivity.
Qed.

(** Without wrap-around, the flip of [AddFrame] is the scanline reversal
    of the GDI backend with stride [4 * width]. *)
Lemma flip_pixels_fit (w h : N) (mem : memory) :
  (1 <= h)%N -> (w * h * 4 < U32.modulus)%N ->
  flip_pixels w h mem = GDI.flip_scanlines (N.to_nat h) (N.to_nat w * 4) mem.
Proof.
  intros Hh Hf. unfold flip_pixels, GDI.flip_scanlines.
  assert (Hs : U32.wrap (w * 4) = (w * 4)%N) by (apply U32Facts.wrap_small; nia).
  rewrite Hs, N2Nat.inj_mul. change (N.to_nat 4) with 4.
  rewrite Nat2N.inj_mul, N2Nat.id. change (N.of_nat 4) with 4%N.
  rewrite U32Facts.wrap_small by nia.
  rewrite N2Nat.inj_mul, N2Nat.inj_sub, N2Nat.inj_mul. reflexivity.
Qed.

Lemma addframe_pixels (s : VideoFileEncoder) (src : memory) (flipY : bool)
    (ts : N) (fe : frame_env)
    (Hsz : m_pixels_size s <> 0) (Hh : (1 <= m_height s)%N)
    (Hfit : (m_width s * m_height s * 4 < U32.modulus)%N) :
  let '(s', ok, calls) := AddFrame s (Some src) flipY ts fe in
  (forall i j, i < N.to_nat (m_height s) -> j < N.to_nat (m_width s) * 4 ->
     m_pixels s' (i * (N.to_nat (m_width s) * 4) + j) =
     src ((if flipY then N.to_nat (m_height s) - 1 - i else i) *
            (N.to_nat (m_width s) * 4) + j)) /\
  (forall a, N.to_nat (m_width s) * N.to_nat (m_height s) * 4 <= a ->
     m_pixels s' a = m_pixels s a) /\
  (ok, calls) = WriteFrame (m_pSinkWriter s) (m_frameDuration s) ts fe.
Proof.
  unfold AddFrame. apply Nat.eqb_neq in Hsz. rewrite Hsz.
  rewrite (frame_bytes_fit _ _ Hfit).
  destruct (WriteFrame _ _ _ _) as [hr calls] eqn:Hwf. cbn [set_pixels m_pixels].
  set (w := N.to_nat (m_width s)). set (h := N.to_nat (m_height s)).
  assert (Hrow : forall i j, i < h -> j < w * 4 ->
                 memcpy 0 0 (w * h * 4) (m_pixels s) src (i * (w * 4) + j) =
                 src (i * (w * 4) + j)).
  { intros i j Hi Hj. unfold memcpy.
    assert (Hlt : i * (w * 4) + j < 0 + w * h * 4) by nia.
    apply Nat.ltb_lt in Hlt. rewrite Hlt. cbn. f_equal. lia. }
  split; [|split].
  - intros i j Hi Hj. destruct flipY.
    + rewrite flip_pixels_fit by assumption. fold w h.
      rewrite GDIFlip.flip_scanlines_row by assumption.
      apply Hrow; [lia | exact Hj].
    + apply Hrow; assumption.
  - intros a Ha.
    assert (Hm : memcpy 0 0 (w * h * 4) (m_pixels s) src a = m_pixels s a).
    { unfold memcpy. replace (a <? 0 + w * h * 4) with false
        by (symmetry; apply Nat.ltb_ge; lia).
      rewrite andb_false_r. reflexivity. }
    destruct flipY; [|exact Hm].
    rewrite flip_pixels_fit by assumption. fold w h.
    rewrite GDIExtras.flip_scanlines_outside by nia. exact Hm.
  - reflexivity.
Qed.

(** AddFrame with valid pixels on a started encoder copies the
    [4 * width * height] bytes of the frame, reversing the order of the
    scanlines when [flipY] is set; the rest of the buffer is untouched,
    and the result and the calls made are those of WriteFrame on the
    current sink writer. *)
Theorem encoder_addframe_pixels (s : VideoFileEncoder) (src : memory) (flipY : bool)
    (ts : N) (fe : frame_env)
    (Hsz : m_pixels_size s <> 0) (Hh : (1 <= m_height s)%N)
    (Hfit : (m_width s * m_height s * 4 < U32.modulus)%N) :
  let '(s', ok, calls) := AddFrame s (Some src) flipY ts fe in
  (forall i j, i < N.to_nat (m_height s) -> j < N.to_nat (m_width s) * 4 ->
     m_pixels s' (i * (N.to_nat (m_width s) * 4) + j) =
     src ((if flipY then N.to_nat (m_height s) - 1 - i else i) *
            (N.to_nat (m_width s) * 4) + j)) /\
  (forall a, N.to_nat (m_width s) * N.to_nat (m_height s) * 4 <= a ->
     m_pixels s' a = m_pixels s a) /\
  (ok, calls) = WriteFrame (m_pSinkWriter s) (m_frameDuration s) ts fe.
Proof. exact (addframe_pixels s src flipY ts fe Hsz Hh Hfit). Qed.

(** A sink writer that opens, one that does not, and a frame on which
    every Media Foundation call succeeds. *)
Definition se_ok : sink_env := {| sink_hr_ok := true; sink_writer := 7; sink_stream := 0 |}.
Definition se_fail : sink_env := {| sink_hr_ok := false; sink_writer := 7; sink_stream := 0 |}.
Definition fe_ok : frame_env := {|
  create_buffer_ok := true; lock_ok := true; copy_ok := true; set_length_ok := true;
  create_sample_ok := true; add_buffer_ok := true; set_time_ok := true;
  set_duration_ok := true; write_ok := true |}.

(** An encoder started on a 2x2 frame at 30 frames per second. *)
Definition enc_2x2 : VideoFileEncoder := fst (Start (fst (construct true true)) false se_ok 2 2 30).

(** Two scanlines of 8 bytes: row 0 holds 1s, row 1 holds 2s. *)
Definition src_rows : memory := fun a => if a <? 8 then Byte.x01 else Byte.x02.

Lemma encoder_addframe_pixels_witness :
  m_pixels_size enc_2x2 <> 0 /\ (1 <= m_height enc_2x2)%N /\
  (m_width enc_2x2 * m_height enc_2x2 * 4 < U32.modulus)%N /\
  let '(s', ok, calls) := AddFrame enc_2x2 (Some src_rows) true 0 fe_ok in
  (forall i j, i < N.to_nat (m_height enc_2x2) -> j < N.to_nat (m_width enc_2x2) * 4 ->
     m_pixels s' (i * (N.to_nat (m_width enc_2x2) * 4) + j) =
     src_rows ((if true then N.to_nat (m_height enc_2x2) - 1 - i else i) *
                 (N.to_nat (m_width enc_2x2) * 4) + j)) /\
  (forall a, N.to_nat (m_width enc_2x2) * N.to_nat (m_height enc_2x2) * 4 <= a ->
     m_pixels s' a = m_pixels enc_2x2 a) /\
  (ok, calls) = WriteFrame (m_pSinkWriter enc_2x2) (m_frameDuration enc_2x2) 0 fe_ok.
Proof.
  assert (H1 : m_pixels_size enc_2x2 <> 0) by (vm_compute; intros H; discriminate H).
  assert (H2 : (1 <= m_height enc_2x2)%N) by (vm_compute; intros H; discriminate H).
  assert (H3 : (m_width enc_2x2 * m_height enc_2x2 * 4 < U32.modulus)%N)
    by (vm_compute; reflexivity).
  refine (conj H1 (conj H2 (conj H3 _))).
  exact (encoder_addframe_pixels enc_2x2 src_rows true 0 fe_ok H1 H2 H3).
Defined.

(** A Start with valid dimensions whose sink writer cannot be created
    returns false but still sizes the pixel buffer, so a later AddFrame
    passes its guard: when the buffer and sample calls succeed it calls
    WriteSample on a null sink writer. *)
Theorem encoder_addframe_null_writer (s s1 : VideoFileEncoder) (fin : bool)
    (se : sink_env) (w h fps : N) (src : memory) (flipY : bool) (ts : N)
    (fe : frame_env)
    (Hstart : Start s fin se w h fps = (s1, false))
    (Hdims : (1 <= w /\ 1 <= h /\ 1 <= fps)%N)
    (Hnz : U32.wrap (w * h) <> 0%N)
    (Hfe : create_buffer_ok fe && lock_ok fe && copy_ok fe && set_length_ok fe &&
           create_sample_ok fe && add_buffer_ok fe && set_time_ok fe &&
           set_duration_ok fe = true) :
  m_pSinkWriter s1 = None /\
  m_pixels_size s1 = frame_bytes w h /\
  In (CallWriteSample None) (snd (AddFrame s1 (Some src) flipY ts fe)).
Proof.
  pose proof (start_facts s fin se w h fps) as H. rewrite Hstart in H.
  destruct H as (_ & Hnone & _ & Hfmt). specialize (Hnone eq_refl).
  destruct (Hfmt Hdims) as (_ & _ & _ & _ & Hsize).
  refine (conj Hnone (conj Hsize _)).
  assert (Hsz : (m_pixels_size s1 =? 0) = false).
  { apply Nat.eqb_neq. rewrite Hsize. unfold frame_bytes. lia. }
  unfold AddFrame. rewrite Hsz. cbn [set_pixels m_pSinkWriter m_frameDuration].
  rewrite Hnone. unfold WriteFrame. cbn zeta.
  rewrite Hfe. cbn. rewrite !in_app_iff. cbn. tauto.
Qed.

Lemma encoder_addframe_null_writer_witness :
  m_pSinkWriter (fst (Start (fst (construct true true)) false se_fail 2 2 30)) = None /\
  m_pixels_size (fst (Start (fst (construct true true)) false se_fail 2 2 30)) =
    frame_bytes 2 2 /\
  In (CallWriteSample None)
     (snd (AddFrame (fst (Start (fst (construct true true)) false se_fail 2 2 30))
                    (Some src_rows) false 0 fe_ok)).
Proof.
  apply (encoder_addframe_null_writer (fst (construct true true))
           (fst (Start (fst (construct true true)) false se_fail 2 2 30))
           false se_fail 2 2 30 src_rows false 0 fe_ok).
  - vm_compute. reflexivity.
  - vm_compute. refine (conj _ (conj _ _)); intros H; discriminate H.
  - vm_compute. intros H; discriminate H.
  - vm_compute. reflexivity.
Defined.

(** capenctest's GDI path: once GDI Startup and a capture succeed, the
    encoder is started on the captured width and height, and the frame
    buffer is handed to AddFrame with [flipY] set, the encoder's frame
    holds exactly the bytes BitBlt wrote, in their bottom-up order: the
    two scanline reversals cancel. *)
Theorem capenctest_gdi_frame (g0 g1 g2 : GDI.ScreenCaptureGDI) (ge : GDI.startup_env)
    (blitted : memory) (enc0 enc1 enc2 : VideoFileEncoder) (fin ok : bool)
    (se : sink_env) (fps ts : N) (fe : frame_env) (calls : list mf_call)
    (Hs : GDI.Startup g0 ge = (g1, true))
    (Hc : GDI.CaptureFrame g1 true blitted = (g2, true))
    (He : Start enc0 fin se (N.of_nat (GDI.GetFrameWidth g2))
            (N.of_nat (GDI.GetFrameHeight g2)) fps = (enc1, true))
    (Ha : AddFrame enc1 (Some (GDI.pixels g2)) true ts fe = (enc2, ok, calls))
    (Hfit : (N.of_nat (GDI.GetFrameWidth g2 * GDI.GetFrameHeight g2 * 4) < U32.modulus)%N) :
  forall a, a < GDI.GetFrameWidth g2 * GDI.GetFrameHeight g2 * 4 ->
    m_pixels enc2 a = blitted a.
Proof.
  intros a Ha_lt.
  pose proof (GDIClaims.gdi_startup_metadata g0 g1 ge Hs) as Hm. cbv zeta in Hm.
  destruct Hm as (Hw1 & _ & _ & Hst1).
  unfold GDI.GetFrameWidth, GDI.GetFrameStride in Hw1, Hst1. rewrite <- Hw1 in Hst1.
  unfold GDI.CaptureFrame in Hc.
  destruct (match GDI.m_hdcMem g1 with None => true | Some _ => false end
            || (GDI.m_width g1 =? 0)); [discriminate Hc|].
  injection Hc as <-.
  unfold GDI.GetFrameWidth, GDI.GetFrameHeight in *. cbn [GDI.m_width GDI.m_height GDI.pixels] in *.
  rewrite Hst1 in Ha.
  set (W := GDI.m_width g1) in *. set (H := GDI.m_height g1) in *.
  pose proof (start_facts enc0 fin se (N.of_nat W) (N.of_nat H) fps) as Hf.
  rewrite He in Hf. destruct Hf as ([Hdims _] & _ & _ & Hfmt).
  destruct (Hdims eq_refl) as [Hdims' _].
  destruct (Hfmt Hdims') as (Hgw & Hgh & _ & _ & Hsize).
  unfold GetWidth, GetHeight in Hgw, Hgh.
  destruct Hdims' as (HW1 & HH1 & _).
  assert (Hfit' : (m_width enc1 * m_height enc1 * 4 < U32.modulus)%N).
  { rewrite Hgw, Hgh. rewrite !Nat2N.inj_mul in Hfit. exact Hfit. }
  assert (Hsz : m_pixels_size enc1 <> 0).
  { rewrite Hsize, frame_bytes_fit by (rewrite <- Hgw, <- Hgh; exact Hfit').
    rewrite !Nat2N.id. lia. }
  assert (Hh1 : (1 <= m_height enc1)%N) by (rewrite Hgh; exact HH1).
  pose proof (addframe_pixels enc1 (GDI.flip_scanlines H (W * 4) blitted) true ts fe
                Hsz Hh1 Hfit') as Hp.
  rewrite Ha in Hp. destruct Hp as (Hrows & _ & _).
  rewrite Hgw, Hgh, !Nat2N.id in Hrows.
  assert (HW : 0 < W * 4) by lia.
  assert (Hdm := Nat.div_mod a (W * 4) ltac:(lia)).
  assert (Hj := Nat.mod_upper_bound a (W * 4) ltac:(lia)).
  assert (Hi : a / (W * 4) < H).
  { apply Nat.Div0.div_lt_upper_bound. lia. }
  replace a with (a / (W * 4) * (W * 4) + a mod (W * 4)) by lia.
  set (i := a / (W * 4)) in *. set (j := a mod (W * 4)) in *.
  rewrite Hrows by assumption.
  rewrite GDIFlip.flip_scanlines_row by (lia || assumption).
  f_equal. f_equal. f_equal. clearbody i. clear - Hi. lia.
Qed.

Lemma capenctest_gdi_frame_witness :
  13 < GDI.GetFrameWidth (fst (GDI.CaptureFrame
                     (fst (GDI.Startup GDI.init GDIExtras.env_3x2)) true src_rows)) *
                GDI.GetFrameHeight (fst (GDI.CaptureFrame
                     (fst (GDI.Startup GDI.init GDIExtras.env_3x2)) true src_rows)) * 4 /\
  m_pixels (fst (fst (AddFrame
    (fst (Start (fst (construct true true)) false se_ok 3 2 30))
    (Some (GDI.pixels (fst (GDI.CaptureFrame
              (fst (GDI.Startup GDI.init GDIExtras.env_3x2)) true src_rows))))
    true 0 fe_ok))) 13 = src_rows 13.
Proof.
  split; [vm_compute; lia|].
  apply (capenctest_gdi_frame GDI.init (fst (GDI.Startup GDI.init GDIExtras.env_3x2))
           (fst (GDI.CaptureFrame (fst (GDI.Startup GDI.init GDIExtras.env_3x2)) true src_rows))
           GDIExtras.env_3x2 src_rows (fst (construct true true))
           (fst (Start (fst (construct true true)) false se_ok 3 2 30))
           (fst (fst (AddFrame
              (fst (Start (fst (construct true true)) false se_ok 3 2 30))
              (Some (GDI.pixels (fst (GDI.CaptureFrame
                        (fst (GDI.Startup GDI.init GDIExtras.env_3x2)) true src_rows))))
              true 0 fe_ok)))
           false
           (snd (fst (AddFrame
              (fst (Start (fst (construct true true)) false se_ok 3 2 30))
              (Some (GDI.pixels (fst (GDI.CaptureFrame
                        (fst (GDI.Startup GDI.init GDIExtras.env_3x2)) true src_rows))))
              true 0 fe_ok)))
           se_ok 30 0 fe_ok
           (snd (AddFrame
              (fst (Start (fst (construct true true)) false se_ok 3 2 30))
              (Some (GDI.pixels (fst (GDI.CaptureFrame
                        (fst (GDI.Startup GDI.init GDIExtras.env_3x2)) true src_rows))))
              true 0 fe_ok)));
    [reflexivity | reflexivity | reflexivity | reflexivity | vm_compute; reflexivity
    | vm_compute; lia].
Defined.

End EncoderExtras.

(* ------------------------------------------------------------------ *)
(** ** Properties of BmpWrite (captest.cpp) *)

Module BmpExtras.
Import Bmp.

(** Reading the little-endian fields of a BMP file back. *)
Definition rd8 (f : list byte) (i : nat) : N :=
  match nth_error f i with Some b => Byte.to_N b | None => 0%N end.
Definition rd16 (f : list byte) (i : nat) : N := (rd8 f i + 256 * rd8 f (i + 1))%N.
Definition rd32 (f : list byte) (i : nat) : N :=
  (rd8 f i + 256 * (rd8 f (i + 1) + 256 * (rd8 f (i + 2) + 256 * rd8 f (i + 3))))%N.

Lemma forallb_ext_l {A} (f g : A -> bool) (l : list A) :
  (forall x, f x = g x) -> forallb f l = forallb g l.
Proof. intros H. induction l as [|x l IH]; cbn; [reflexivity|]. rewrite H, IH. reflexivity. Qed.

Lemma forallb_map_l {A B} (f : B -> bool) (g : A -> B) (l : list A) :
  forallb f (map g l) = forallb (fun x => f (g x)) l.
Proof. induction l as [|x l IH]; cbn; [reflexivity|]. rewrite IH. reflexivity. Qed.

Lemma write_scanlines_spec (e : fs_env) (bits : memory) (st os n : nat) : forall y sc,
  write_scanlines n y e bits sc st os =
  if forallb (fun k => fwrite_ok e (2 + y + k)) (seq 0 n)
  then Some (concat (map (fun k => read_bytes bits (sc - k * st) os) (seq 0 n)))
  else None.
Proof.
  induction n as [|n IH]; intros y sc; [reflexivity|].
  cbn [write_scanlines seq forallb map concat].
  rewrite IH, <- seq_shift, forallb_map_l, map_map.
  rewrite (forallb_ext_l (fun x => fwrite_ok e (2 + S y + x))
                         (fun x => fwrite_ok e (2 + y + S x))) by (intros; f_equal; lia).
  replace (2 + y + 0) with (2 + y) by lia.
  destruct (fwrite_ok e (2 + y)); cbn; [|reflexivity].
  destruct (forallb _ _); [|reflexivity].
  rewrite (map_ext (fun k => read_bytes bits (sc - st - k * st) os)
                   (fun x => read_bytes bits (sc - S x * st) os)) by (intros; f_equal; lia).
  rewrite ?Nat.sub_0_r. reflexivity.
Qed.

Lemma length_rows (bits : memory) (st os n sc : nat) :
  length (concat (map (fun k => read_bytes bits (sc - k * st) os) (seq 0 n))) = n * os.
Proof.
  induction n as [|n IH]; [reflexivity|].
  rewrite seq_S, map_app, concat_app, length_app, IH. cbn.
  unfold read_bytes. rewrite app_nil_r, length_map, length_seq. lia.
Qed.

Lemma forallb_seq_iff (f : nat -> bool) (n : nat) :
  forallb f (seq 0 n) = true <-> forall k, k < n -> f k = true.
Proof.
  rewrite forallb_forall. split.
  - intros H k Hk. apply H. apply in_seq. lia.
  - intros H k Hk. apply in_seq in Hk. apply H. lia.
Qed.

Lemma guard_false_iff (szPath : option String.string) (w h stride bpp : N) :
  (match szPath with None => true | Some String.EmptyString => true | Some _ => false end
   || (w <? 1)%N || (h <? 1)%N || (stride <? U32.wrap (w * 3))%N ||
   (negb (bpp =? 24)%N && negb (bpp =? 32)%N)) = false <->
  (szPath <> None /\ szPath <> Some String.EmptyString) /\ (1 <= w)%N /\ (1 <= h)%N /\
  (U32.wrap (w * 3) <= stride)%N /\ (bpp = 24 \/ bpp = 32)%N.
Proof.
  rewrite !orb_false_iff, !N.ltb_ge, andb_false_iff, !negb_false_iff, !N.eqb_eq.
  destruct szPath as [[|c str]|]; cbn;
    intuition (try discriminate; try lia); try congruence;
    destruct (N.eqb_spec bpp 24), (N.eqb_spec bpp 32); lia.
Qed.

Lemma outcome_facts (szPath : option String.string) (w h stride bpp : N)
    (pBits : option memory) (e : fs_env) (prior : option (list byte)) :
  let '(ok, file) := BmpWrite szPath w h stride bpp pBits e prior in
  (ok = true <->
     ((szPath <> None /\ szPath <> Some String.EmptyString) /\ (1 <= w)%N /\ (1 <= h)%N /\
      (U32.wrap (w * 3) <= stride)%N /\ (bpp = 24 \/ bpp = 32)%N) /\
     pBits <> None /\ fopen_ok e = true /\
     (forall k, k < N.to_nat h + 2 -> fwrite_ok e k = true)) /\
  (ok = false -> file = prior \/ file = None) /\
  (ok = true -> exists c, file = Some c /\
     length c = 54 + N.to_nat h * N.to_nat (out_stride w bpp)).
Proof.
  unfold BmpWrite.
  destruct (_ || _ || _ || _ || _) eqn:Hg.
  - assert (Hn : ~ ((szPath <> None /\ szPath <> Some String.EmptyString) /\ (1 <= w)%N /\
                    (1 <= h)%N /\ (U32.wrap (w * 3) <= stride)%N /\ (bpp = 24 \/ bpp = 32)%N)).
    { intros Hv. apply guard_false_iff in Hv. rewrite Hg in Hv. discriminate. }
    intuition discriminate.
  - apply guard_false_iff in Hg.
    destruct pBits as [bits|]; [|intuition (try discriminate; try congruence)].
    destruct (fopen_ok e) eqn:Ho; cbn; [|intuition discriminate].
    rewrite write_scanlines_spec.
    destruct (fwrite_ok e 0) eqn:H0; cbn.
    2: { split; [|split; [intros; right; reflexivity | discriminate]].
         split; [discriminate|]. intros (_ & _ & _ & Hw).
         rewrite Hw in H0 by lia. discriminate. }
    destruct (fwrite_ok e 1) eqn:H1; cbn.
    2: { split; [|split; [intros; right; reflexivity | discriminate]].
         split; [discriminate|]. intros (_ & _ & _ & Hw).
         rewrite Hw in H1 by lia. discriminate. }
    destruct (forallb _ _) eqn:Hf.
    + rewrite forallb_seq_iff in Hf.
      split; [|split; [discriminate|]].
      * split; [intros _|reflexivity]. refine (conj Hg (conj _ (conj eq_refl _))).
        -- discriminate.
        -- intros k Hk. destruct k as [|[|k]]; [exact H0 | exact H1 |].
           replace (S (S k)) with (2 + 0 + k) by lia. apply Hf. lia.
      * intros _. eexists. split; [reflexivity|].
        cbn [length]. rewrite length_rows. lia.
    + split; [|split; [intros; right; reflexivity | discriminate]].
      split; [discriminate|]. intros (_ & _ & _ & Hw).
      assert (Hall : forallb (fun k => fwrite_ok e (S (S k))) (seq 0 (N.to_nat h)) = true).
      { apply forallb_seq_iff. intros k Hk. apply Hw. lia. }
      rewrite Hall in Hf. discriminate.
Qed.

(** BmpWrite returns true exactly when its arguments pass the checks
    (non-empty path, width and height at least 1, stride at least
    [3 * width], 24 or 32 bits per pixel, non-null pixels), the file
    could be opened and all [height + 2] fwrite calls succeeded; the file
    then holds the 54 header bytes and [height] padded scanlines.  A call
    that returns false never leaves a partial file behind: the previous
    file is untouched, or, once fopen had truncated it, removed. *)
Theorem bmp_write_outcome (szPath : option String.string) (w h stride bpp : N)
    (pBits : option memory) (e : fs_env) (prior : option (list byte)) :
  let '(ok, file) := BmpWrite szPath w h stride bpp pBits e prior in
  (ok = true <->
     ((szPath <> None /\ szPath <> Some String.EmptyString) /\ (1 <= w)%N /\ (1 <= h)%N /\
      (U32.wrap (w * 3) <= stride)%N /\ (bpp = 24 \/ bpp = 32)%N) /\
     pBits <> None /\ fopen_ok e = true /\
     (forall k, k < N.to_nat h + 2 -> fwrite_ok e k = true)) /\
  (ok = false -> file = prior \/ file = None) /\
  (ok = true -> exists c, file = Some c /\
     length c = 54 + N.to_nat h * N.to_nat (out_stride w bpp)).
Proof. exact (outcome_facts szPath w h stride bpp pBits e prior). Qed.

Lemma to_N_byte_of (x : N) : Byte.to_N (byte_of x) = (x mod 256)%N.
Proof.
  unfold byte_of. destruct (Byte.of_N (x mod 256)) eqn:E.
  - apply Byte.to_of_N. exact E.
  - apply Byte.of_N_None_iff in E. pose proof (N.mod_lt x 256 ltac:(lia)). lia.
Qed.

Lemma le32_decode (x : N) : (x < U32.modulus)%N ->
  (x mod 256 + 256 * ((x / 256) mod 256 + 256 * ((x / 256 / 256) mod 256 +
     256 * ((x / 256 / 256 / 256) mod 256))))%N = x.
Proof.
  intros H. unfold U32.modulus in H.
  assert (H3 : (x / 256 / 256 / 256 < 256)%N).
  { rewrite !N.Div0.div_div. apply N.Div0.div_lt_upper_bound. cbn in *. lia. }
  rewrite (N.mod_small (x / 256 / 256 / 256)) by exact H3.
  pose proof (N.div_mod x 256 ltac:(lia)).
  pose proof (N.div_mod (x / 256) 256 ltac:(lia)).
  pose proof (N.div_mod (x / 256 / 256) 256 ltac:(lia)).
  lia.
Qed.

Lemma le16_decode (x : N) : (x < 65536)%N ->
  (x mod 256 + 256 * ((x / 256) mod 256))%N = x.
Proof.
  intros H.
  assert (H1 : (x / 256 < 256)%N) by (apply N.Div0.div_lt_upper_bound; lia).
  rewrite (N.mod_small (x / 256)) by exact H1.
  pose proof (N.div_mod x 256 ltac:(lia)). lia.
Qed.

Lemma wrap_lt (x : N) : (U32.wrap x < U32.modulus)%N.
Proof. unfold U32.wrap. apply N.mod_lt. discriminate. Qed.

Lemma success_file (szPath : option String.string) (w h stride bpp : N) (bits : memory)
    (e : fs_env) (prior : option (list byte)) (file : list byte) :
  BmpWrite szPath w h stride bpp (Some bits) e prior = (true, Some file) ->
  file = file_header (66 + 256 * 77)%N
           (U32.wrap (14 + 40 + U32.wrap (out_stride w bpp * h))%N) (14 + 40)%N ++
         info_header 40 w h 1 bpp (U32.wrap (out_stride w bpp * h)%N) ++
         concat (map (fun k => read_bytes bits
                                 (N.to_nat (U32.wrap (stride * (h - 1))%N) - k * N.to_nat stride)
                                 (N.to_nat (out_stride w bpp)))
                     (seq 0 (N.to_nat h))).
Proof.
  unfold BmpWrite. destruct (_ || _ || _ || _ || _); [discriminate|].
  destruct (fopen_ok e); [|discriminate]. cbn [negb].
  destruct (fwrite_ok e 0); [|discriminate]. destruct (fwrite_ok e 1); [|discriminate].
  rewrite write_scanlines_spec. destruct (forallb _ _); [|discriminate].
  intros H. injection H as <-. reflexivity.
Qed.

Lemma layout_facts (szPath : option String.string) (w h stride bpp : N)
    (bits : memory) (e : fs_env) (prior : option (list byte)) (file : list byte)
    (Hok : BmpWrite szPath w h stride bpp (Some bits) e prior = (true, Some file))
    (Hw : (w < U32.modulus)%N) (Hh : (h < U32.modulus)%N)
    (Hfit : (54 + out_stride w bpp * h < U32.modulus)%N)
    (Hrow : (stride * (h - 1) < U32.modulus)%N) :
  nth_error file 0 = Some Byte.x42 /\ nth_error file 1 = Some Byte.x4d /\
  rd32 file 2 = N.of_nat (length file) /\ rd32 file 10 = 54%N /\
  rd32 file 14 = 40%N /\ rd32 file 18 = w /\ rd32 file 22 = h /\
  rd16 file 26 = 1%N /\ rd16 file 28 = bpp /\
  rd32 file 34 = N.of_nat (length file - 54) /\
  skipn 54 file =
    concat (map (fun k => read_bytes bits (N.to_nat stride * (N.to_nat h - 1 - k))
                                     (N.to_nat (out_stride w bpp)))
                (seq 0 (N.to_nat h))).
Proof.
  assert (Hbpp : (bpp = 24 \/ bpp = 32)%N).
  { pose proof (outcome_facts szPath w h stride bpp (Some bits) e prior) as Ho.
    rewrite Hok in Ho. destruct Ho as [[Hv _] _]. apply Hv. reflexivity. }
  apply success_file in Hok. subst file.
  set (os := out_stride w bpp) in *.
  set (rows := concat _).
  assert (Hlen : length rows = N.to_nat h * N.to_nat os) by apply length_rows.
  assert (Hsi : U32.wrap (os * h) = (os * h)%N) by (apply U32Facts.wrap_small; lia).
  assert (Hsz : U32.wrap (14 + 40 + os * h) = (54 + os * h)%N)
    by (apply U32Facts.wrap_small; lia).
  unfold file_header, info_header, le16, le32, rd32, rd16, rd8.
  rewrite Hsi, Hsz.
  cbn [app nth_error Nat.add length skipn].
  rewrite !to_N_byte_of.
  change U32.modulus with 4294967296%N in *.
  rewrite !le32_decode by (change U32.modulus with 4294967296%N; lia).
  rewrite !le16_decode by lia.
  rewrite Hlen.
  refine (conj _ (conj _ _)); [reflexivity | reflexivity |].
  split; [nia|]. split; [reflexivity|]. split; [reflexivity|].
  split; [reflexivity|]. split; [reflexivity|]. split; [reflexivity|].
  split; [reflexivity|]. split; [nia|].
  unfold rows. f_equal. apply map_ext. intros k. f_equal.
  rewrite U32Facts.wrap_small by exact Hrow.
  rewrite N2Nat.inj_mul, N2Nat.inj_sub. change (N.to_nat 1) with 1.
  rewrite !Nat.mul_sub_distr_l, (Nat.mul_comm k). reflexivity.
Qed.

(** On success the file is a well-formed BMP: it starts with "BM", its
    bfSize field is the file length and bfOffBits is 54, where the pixel
    data starts; the info header records a 40-byte header, the width, the
    height, one plane, the bit count and the size of the pixel data.  The
    pixel data is the padded scanlines of the image from the last one to
    the first, [outStride] bytes each, read at multiples of [stride]. *)
Theorem bmp_write_layout (szPath : option String.string) (w h stride bpp : N)
    (bits : memory) (e : fs_env) (prior : option (list byte)) (file : list byte)
    (Hok : BmpWrite szPath w h stride bpp (Some bits) e prior = (true, Some file))
    (Hw : (w < U32.modulus)%N) (Hh : (h < U32.modulus)%N)
    (Hfit : (54 + out_stride w bpp * h < U32.modulus)%N)
    (Hrow : (stride * (h - 1) < U32.modulus)%N) :
  nth_error file 0 = Some Byte.x42 /\ nth_error file 1 = Some Byte.x4d /\
  rd32 file 2 = N.of_nat (length file) /\ rd32 file 10 = 54%N /\
  rd32 file 14 = 40%N /\ rd32 file 18 = w /\ rd32 file 22 = h /\
  rd16 file 26 = 1%N /\ rd16 file 28 = bpp /\
  rd32 file 34 = N.of_nat (length file - 54) /\
  skipn 54 file =
    concat (map (fun k => read_bytes bits (N.to_nat stride * (N.to_nat h - 1 - k))
                                     (N.to_nat (out_stride w bpp)))
                (seq 0 (N.to_nat h))).
Proof. exact (layout_facts szPath w h stride bpp bits e prior file Hok Hw Hh Hfit Hrow). Qed.

(** The path "a", a file system on which every call succeeds, and the
    file written for an image, or the empty list if none is written. *)
Definition path_a : String.string := String.String (Ascii.ascii_of_nat 97) String.EmptyString.
Definition fs_ok : fs_env := {| fopen_ok := true; fwrite_ok := fun _ => true |}.
Definition written (w h stride bpp : N) (bits : memory) : list byte :=
  match snd (BmpWrite (Some path_a) w h stride bpp (Some bits) fs_ok None) with
  | Some f => f
  | None => []
  end.

(** Two scanlines of 8 bytes: row 0 holds 1s, row 1 holds 2s. *)
Definition rows_2x8 : memory := fun a => if a <? 8 then Byte.x01 else Byte.x02.

Lemma bmp_write_layout_witness :
  let file := written 2 2 8 32 rows_2x8 in
  nth_error file 0 = Some Byte.x42 /\ nth_error file 1 = Some Byte.x4d /\
  rd32 file 2 = N.of_nat (length file) /\ rd32 file 10 = 54%N /\
  rd32 file 14 = 40%N /\ rd32 file 18 = 2%N /\ rd32 file 22 = 2%N /\
  rd16 file 26 = 1%N /\ rd16 file 28 = 32%N /\
  rd32 file 34 = N.of_nat (length file - 54) /\
  skipn 54 file =
    concat (map (fun k => read_bytes rows_2x8 (N.to_nat 8 * (N.to_nat 2 - 1 - k))
                                     (N.to_nat (out_stride 2 32)))
                (seq 0 (N.to_nat 2))).
Proof.
  apply (bmp_write_layout (Some path_a) 2 2 8 32 rows_2x8 fs_ok None
           (written 2 2 8 32 rows_2x8));
    vm_compute; reflexivity.
Defined.

(** BmpWrite only requires [stride >= 3 * width], yet copies [outStride]
    bytes per scanline, [4 * width] at 32 bits per pixel and [3 * width]
    rounded up to a multiple of 4 at 24: when that exceeds the stride, the
    first scanline written (the last one of the image) runs past the
    [stride * height] bytes of the image, and the byte just after the
    image ends up in the file, right after the stride first bytes of
    pixel data. *)
Theorem bmp_write_reads_past_image (szPath : option String.string) (w h stride bpp : N)
    (bits : memory) (e : fs_env) (prior : option (list byte)) (file : list byte)
    (Hok : BmpWrite szPath w h stride bpp (Some bits) e prior = (true, Some file))
    (Hrow : (stride * (h - 1) < U32.modulus)%N)
    (Hwide : N.to_nat stride < N.to_nat (out_stride w bpp)) :
  nth_error file (54 + N.to_nat stride) = Some (bits (N.to_nat stride * N.to_nat h)).
Proof.
  assert (Hh : (1 <= h)%N).
  { pose proof (outcome_facts szPath w h stride bpp (Some bits) e prior) as Ho.
    rewrite Hok in Ho. destruct Ho as [[Hv _] _]. apply Hv. reflexivity. }
  apply success_file in Hok. subst file.
  rewrite app_assoc, nth_error_app2
    by (unfold file_header, info_header, le16, le32; cbn [length app]; lia).
  replace (54 + N.to_nat stride - length (file_header _ _ _ ++ info_header _ _ _ _ _ _))
    with (N.to_nat stride)
    by (unfold file_header, info_header, le16, le32; cbn [length app]; lia).
  destruct (N.to_nat h) as [|h'] eqn:Hhn; [lia|].
  cbn [seq map concat]. rewrite nth_error_app1
    by (unfold read_bytes; rewrite length_map, length_seq; exact Hwide).
  unfold read_bytes. rewrite nth_error_map, nth_error_seq.
  apply Nat.ltb_lt in Hwide. rewrite Hwide. cbn [option_map].
  f_equal. f_equal.
  rewrite U32Facts.wrap_small by exact Hrow.
  rewrite N2Nat.inj_mul, N2Nat.inj_sub, Hhn. change (N.to_nat 1) with 1. lia.
Qed.

Lemma bmp_write_reads_past_image_witness :
  nth_error (written 2 1 6 32 rows_2x8) (54 + N.to_nat 6) =
    Some (rows_2x8 (N.to_nat 6 * N.to_nat 1)).
Proof.
  apply (bmp_write_reads_past_image (Some path_a) 2 1 6 32 rows_2x8 fs_ok None);
    vm_compute; first [reflexivity | lia].
Defined.

Lemma map_seq_shift {A} (f : nat -> A) (s n : nat) :
  map f (seq s n) = map (fun j => f (s + j)) (seq 0 n).
Proof.
  revert f. induction s as [|s IH]; intros f; [reflexivity|].
  rewrite <- seq_shift, map_map. apply (IH (fun j => f (S j))).
Qed.

Lemma read_bytes_app (m : memory) (a n1 n2 : nat) :
  read_bytes m a (n1 + n2) = read_bytes m a n1 ++ read_bytes m (a + n1) n2.
Proof.
  unfold read_bytes. rewrite seq_app, map_app. f_equal.
  rewrite map_seq_shift. apply map_ext. intros j. f_equal. lia.
Qed.

Lemma concat_rows (m : memory) (n h : nat) :
  concat (map (fun k => read_bytes m (k * n) n) (seq 0 h)) = read_bytes m 0 (h * n).
Proof.
  induction h as [|h IH]; [reflexivity|].
  rewrite seq_S, map_app, concat_app, IH. cbn [map concat]. rewrite app_nil_r.
  replace (S h * n) with (h * n + n) by lia. rewrite read_bytes_app. reflexivity.
Qed.

Lemma pad4_mul4 (x : N) : pad4 4 (4 * x) = (4 * x)%N.
Proof.
  cbn [pad4]. replace ((4 * x) mod 4)%N with 0%N; [reflexivity|].
  rewrite N.mul_comm, N.Div0.mod_mul. reflexivity.
Qed.

(** captest's GDI path: after a successful GDI Startup and capture, the
    frame written by BmpWrite with the capture's width, height, stride,
    depth and buffer holds, as pixel data, exactly the bytes BitBlt wrote,
    in the same order: BMP's bottom-up scanline order undoes the
    reversal done by CaptureFrame. *)
Theorem captest_gdi_bmp (g0 g1 g2 : GDI.ScreenCaptureGDI) (ge : GDI.startup_env)
    (blitted : memory) (szPath : option String.string) (e : fs_env)
    (prior : option (list byte)) (file : list byte)
    (Hs : GDI.Startup g0 ge = (g1, true))
    (Hc : GDI.CaptureFrame g1 true blitted = (g2, true))
    (Hb : BmpWrite szPath (N.of_nat (GDI.GetFrameWidth g2)) (N.of_nat (GDI.GetFrameHeight g2))
            (N.of_nat (GDI.GetFrameStride g2)) (N.of_nat (GDI.GetFrameDepth g2))
            (match GDI.GetFrameBuffer g2 with
             | Some _ => Some (GDI.pixels g2) | None => None end)
            e prior = (true, Some file))
    (Hfit : (N.of_nat (54 + GDI.GetFrameWidth g2 * GDI.GetFrameHeight g2 * 4)
               < U32.modulus)%N)
    (Hfitw : (N.of_nat (GDI.GetFrameWidth g2 * 32) < U32.modulus)%N) :
  skipn 54 file =
    read_bytes blitted 0 (GDI.GetFrameHeight g2 * (GDI.GetFrameWidth g2 * 4)).
Proof.
  pose proof (GDIClaims.gdi_startup_metadata g0 g1 ge Hs) as Hm. cbv zeta in Hm.
  destruct Hm as (Hw1 & _ & Hd1 & Hst1).
  unfold GDI.GetFrameWidth, GDI.GetFrameStride, GDI.GetFrameDepth in Hw1, Hst1, Hd1.
  rewrite <- Hw1 in Hst1.
  unfold GDI.CaptureFrame in Hc.
  destruct (match GDI.m_hdcMem g1 with None => true | Some _ => false end
            || (GDI.m_width g1 =? 0)) eqn:Hg; [discriminate Hc|].
  apply orb_false_iff in Hg as [_ Hw0]. apply Nat.eqb_neq in Hw0.
  injection Hc as <-.
  unfold GDI.GetFrameWidth, GDI.GetFrameHeight, GDI.GetFrameStride, GDI.GetFrameDepth,
    GDI.GetFrameBuffer in *.
  cbn [GDI.m_width GDI.m_height GDI.m_stride GDI.m_depth GDI.m_dibBits GDI.pixels] in *.
  rewrite Hst1, Hd1 in *.
  set (W := GDI.m_width g1) in *. set (H := GDI.m_height g1) in *.
  pose proof (outcome_facts szPath (N.of_nat W) (N.of_nat H) (N.of_nat (W * 4))
                (N.of_nat 32) (match GDI.m_dibBits g1 with
                               | Some _ => Some (GDI.flip_scanlines H (W * 4) blitted)
                               | None => None end) e prior) as Ho.
  rewrite Hb in Ho. destruct Ho as [[Hv _] _].
  destruct (Hv eq_refl) as ((_ & _ & HH1 & _) & Hnn & _).
  destruct (GDI.m_dibBits g1) as [b|]; [|congruence].
  assert (Hos : out_stride (N.of_nat W) (N.of_nat 32) = N.of_nat (W * 4)).
  { unfold out_stride.
    rewrite U32Facts.wrap_small by (rewrite <- Nat2N.inj_mul; exact Hfitw).
    replace (N.of_nat W * N.of_nat 32 / 8)%N with (4 * N.of_nat W)%N.
    - rewrite pad4_mul4. lia.
    - change (N.of_nat 32) with 32%N.
      replace (N.of_nat W * 32)%N with ((4 * N.of_nat W) * 8)%N by lia.
      rewrite N.div_mul by discriminate. reflexivity. }
  assert (HWH : W * 4 * H <= W * H * 4) by lia.
  pose proof (layout_facts szPath (N.of_nat W) (N.of_nat H) (N.of_nat (W * 4)) (N.of_nat 32)
                (GDI.flip_scanlines H (W * 4) blitted) e prior file Hb) as Hl.
  rewrite Hos in Hl.
  destruct Hl as (_ & _ & _ & _ & _ & _ & _ & _ & _ & _ & Hrows).
  - apply N.le_lt_trans with (2 := Hfitw). lia.
  - apply N.le_lt_trans with (2 := Hfit). nia.
  - apply N.le_lt_trans with (2 := Hfit). nia.
  - apply N.le_lt_trans with (2 := Hfit). nia.
  - rewrite Hrows, !Nat2N.id.
    rewrite <- concat_rows. f_equal. apply map_ext_in. intros k Hk.
    apply in_seq in Hk. unfold read_bytes. apply map_ext_in. intros j Hj.
    apply in_seq in Hj.
    rewrite (Nat.mul_comm (W * 4) (H - 1 - k)).
    rewrite GDIFlip.flip_scanlines_row by lia.
    replace (H - 1 - (H - 1 - k)) with k by lia.
    reflexivity.
Qed.





(** captest on a 3x2 screen: the frame captured by GDI and the BMP file
    written from it. *)
Definition gdi_frame : GDI.ScreenCaptureGDI :=
  fst (GDI.CaptureFrame (fst (GDI.Startup GDI.init GDIExtras.env_3x2)) true rows_2x8).
Definition gdi_bmp : bool * option (list byte) :=
  BmpWrite (Some path_a) (N.of_nat (GDI.GetFrameWidth gdi_frame))
    (N.of_nat (GDI.GetFrameHeight gdi_frame)) (N.of_nat (GDI.GetFrameStride gdi_frame))
    (N.of_nat (GDI.GetFrameDepth gdi_frame))
    (match GDI.GetFrameBuffer gdi_frame with
     | Some _ => Some (GDI.pixels gdi_frame) | None => None end)
    fs_ok None.
Definition gdi_bmp_file : list byte :=
  match snd gdi_bmp with Some f => f | None => [] end.

Lemma captest_gdi_bmp_witness :
  skipn 54 gdi_bmp_file =
    read_bytes rows_2x8 0 (GDI.GetFrameHeight gdi_frame * (GDI.GetFrameWidth gdi_frame * 4)).
Proof.
  apply (captest_gdi_bmp GDI.init (fst (GDI.Startup GDI.init GDIExtras.env_3x2)) gdi_frame
           GDIExtras.env_3x2 rows_2x8 (Some path_a) fs_ok None gdi_bmp_file);
    vm_compute; reflexivity.
Defined.

End BmpExtras.
